(** * Palette Picks: the route handlers of [app.js] and their contracts

    The server is an Express application: every route is an [async]
    function that reads the request, issues at most two query-builder
    calls and sends one response.  The development below embeds

    - the JavaScript values that travel through the handlers,
    - the handlers themselves, as programs over query-builder calls,
    - an in-memory datastore against which these programs run,

    and then states the contracts of the routes over that embedding. *)

From Stdlib Require Import Ascii SpecFloat.
From stdpp Require Import gmap strings list fin_maps.

(** ** JavaScript values *)

(** A JavaScript number is an IEEE 754 binary64. *)
Abbreviation number := spec_float.

Definition number_of_Z (z : Z) : number := binary_normalize 53 1024 z 0 false.

(** The values a handler sees: what [JSON.parse] produces, plus
    [undefined] (the result of reading past the end of an array). Objects
    are finite maps from property names to values; only own enumerable
    properties are ever read by the handlers. *)
#[warnings="-register-all"]
Inductive value : Type :=
| VUndefined
| VNull
| VBool (b : bool)
| VNumber (x : number)
| VString (s : string)
| VArray (l : list value)
| VObject (o : gmap string value).

Abbreviation object := (gmap string value).

(** ToBoolean: [undefined], [null], [false], [+0], [-0], [NaN] and the empty
    string are falsy; everything else, objects and arrays included, is
    truthy. *)
Definition truthy (v : value) : bool :=
  match v with
  | VUndefined | VNull => false
  | VBool b => b
  | VNumber (S754_zero _) | VNumber S754_nan => false
  | VNumber _ => true
  | VString s => negb (String.eqb s "")
  | VArray _ | VObject _ => true
  end.

(** [o.p] for an object that came out of [JSON.parse]: an own property, or
    [undefined] (no handler reads a property that [Object.prototype]
    defines through this form). *)
Definition get (o : object) (p : string) : value := default VUndefined (o !! p).

(** [a[0]] *)
Definition first (a : list value) : value := default VUndefined (head a).

(** [a.length], used as a condition *)
Definition nonempty {A} (a : list A) : bool :=
  match a with [] => false | _ :: _ => true end.

(** The error object of a failed call of a non-function. *)
Definition TypeError (message : string) : value :=
  VObject {[ "name" := VString "TypeError"; "message" := VString message ]}.

(** The double quote character, for the messages that contain one. *)
Definition dq : string := String (ascii_of_nat 34) "".

(** ** Requests and responses *)

(** [request.params.id], [request.query.color] and [request.body]. The body
    is what [express.json()] leaves there: the own properties of the parsed
    object (of the parsed array, by index), or the empty object when the
    request carried no JSON. *)
Record request : Type := Request {
  params_id : string;
  query_color : option string;
  body : object
}.

Inductive payload : Type :=
| Json (v : value)
| Text (s : string).

Record response : Type := Response {
  status : nat;
  sent : payload
}.

(** [response.status(code).json(v)] *)
Definition json (code : nat) (v : value) : response := Response code (Json v).

(** [response.status(code).send(x)]: a string goes out as text, anything
    else as JSON. *)
Definition send (code : nat) (x : value) : response :=
  match x with
  | VString s => Response code (Text s)
  | _ => Response code (Json x)
  end.

(** ** Handlers as programs over query-builder calls *)

(** The calls the handlers make on [database(table)], indexed by what they
    resolve to. *)
Inductive query : Type -> Type :=
| Select (table : string) : query (list value)
| Where (table column : string) (v : value) : query (list value)
| Insert (table : string) (row : object) (returning : string) : query (list value)
| Update (table column : string) (v : value) (changes : object) (returning : string)
  : query (list value)
| Del (table column : string) (v : value) : query nat.

(** A query-builder call is a promise: it resolves to a result or rejects
    with an error. *)
Inductive outcome (R : Type) : Type :=
| Resolved (r : R)
| Rejected (e : value).
Arguments Resolved {R} r.
Arguments Rejected {R} e.

(** An [async] handler: it returns, throws, or waits on a query and goes on
    with its outcome. *)
Inductive handler (A : Type) : Type :=
| Done (a : A)
| Throw (e : value)
| Await {R : Type} (q : query R) (k : outcome R -> handler A).
Arguments Done {A} a.
Arguments Throw {A} e.
Arguments Await {A R} q k.

Fixpoint bind {A B} (m : handler A) (f : A -> handler B) : handler B :=
  match m with
  | Done a => f a
  | Throw e => Throw e
  | Await q k => Await q (fun o => bind (k o) f)
  end.

#[global] Instance handler_ret : MRet handler := @Done.
#[global] Instance handler_bind : MBind handler := fun A B f m => bind m f.

(** [await q]: a rejected promise throws at the point of the [await]. *)
Definition await {R} (q : query R) : handler R :=
  Await q (fun o => match o with Resolved r => Done r | Rejected e => Throw e end).

(** [try { body } catch (error) { h error }] *)
Fixpoint try_catch {A} (body : handler A) (h : value -> handler A) : handler A :=
  match body with
  | Done a => Done a
  | Throw e => h e
  | Await q k => Await q (fun o => try_catch (k o) h)
  end.

(** [o.hasOwnProperty(p)], called through the object itself: the method is
    found on [Object.prototype] unless the object has an own property of
    that name, and an own property that came out of [JSON.parse] is never a
    function. *)
Definition hasOwnProperty (o : object) (p : string) : handler bool :=
  match o !! "hasOwnProperty" with
  | Some _ => Throw (TypeError "palette.hasOwnProperty is not a function")
  | None => Done (bool_decide (is_Some (o !! p)))
  end.

(** ** The handlers of [app.js] *)

Definition error_of (e : value) : value := VObject {[ "error" := e ]}.

Definition palette_format : string :=
  "Expected body format is: { name: <String>, color_one: <String>, color_two: <String>, color_three: <String>, color_four: <String>, color_five: <String> }.".

Definition missing_palette_property (requiredParameter : string) : string :=
  palette_format +:+ " You're missing the required " +:+ dq +:+ requiredParameter
    +:+ dq +:+ " property.".

Definition missing_project_name : string :=
  "Expected body format {name: <String>}. You're missing the required name property".

Definition palette_not_found (id : string) : string :=
  "Could not find palette with an id of " +:+ id.

Definition palette_removed (id : string) : string :=
  "Palette with id " +:+ id +:+ " has been removed successfully".

Definition required_palette_parameters : list string :=
  ["name"; "color_one"; "color_two"; "color_three"; "color_four"; "color_five";
   "projects_id"].

Section Handlers.

(** [Number(s)], the conversion of a string to a number. *)
Variable Number : string -> number.

(** [app.get('/api/v1/projects', ...)] *)
Definition get_projects (request : request) : handler response :=
  try_catch
    (projects ← await (Select "projects");
     Done (json 200 (VObject {[ "projects" := VArray projects ]})))
    (fun error => Done (json 500 (error_of error))).

(** [app.get('/api/v1/palettes/:id', ...)] *)
Definition get_palette (request : request) : handler response :=
  let id := params_id request in
  try_catch
    (palettes ← await (Where "palettes" "id" (VString id));
     if nonempty palettes
     then Done (json 200 (first palettes))
     else Done (json 404 (error_of (VString (palette_not_found id)))))
    (fun error => Done (json 500 (error_of error))).

(** The [for ... of] loop of the palette POST: it returns the 422
    response at the first required parameter the palette lacks, and falls
    through to [rest] when there is none. *)
Fixpoint for_required (palette : object) (parameters : list string)
    (rest : handler response) : handler response :=
  match parameters with
  | [] => rest
  | requiredParameter :: parameters' =>
      has ← hasOwnProperty palette requiredParameter;
      if negb has
      then Done (send 422
             (error_of (VString (missing_palette_property requiredParameter))))
      else for_required palette parameters' rest
  end.

(** [app.post('/api/v1/projects/:id/palettes', ...)] *)
Definition post_palette (request : request) : handler response :=
  let projects_id := params_id request in
  let palette : object :=
    <[ "projects_id" := VNumber (Number projects_id) ]> (body request) in
  for_required palette required_palette_parameters
    (try_catch
       (id ← await (Insert "palettes" palette "id");
        Done (json 201 (VObject {[ "id" := first id ]})))
       (fun error => Done (json 500 (error_of error)))).

(** [app.post('/api/v1/projects', ...)] *)
Definition post_project (request : request) : handler response :=
  let project := body request in
  if negb (truthy (get project "name"))
  then Done (json 422 (error_of (VString missing_project_name)))
  else
    try_catch
      (id ← await (Insert "projects" project "id");
       Done (json 201 (VObject {[ "id" := first id ]})))
      (fun error => Done (json 500 (error_of error))).

(** [app.delete('/api/v1/palettes/:id', ...)] *)
Definition delete_palette (request : request) : handler response :=
  let palettes_id := params_id request in
  try_catch
    (found ← await (Where "palettes" "id" (VString palettes_id));
     if nonempty found
     then
       id ← await (Del "palettes" "id" (VString palettes_id));
       Done (send 200 (VString (palette_removed palettes_id)))
     else Done (json 404 (error_of (VString (palette_not_found palettes_id)))))
    (fun error => Done (json 500 (error_of error))).

(** The palette the palette POST validates and inserts. *)
Definition palette_of (request : request) : object :=
  <[ "projects_id" := VNumber (Number (params_id request)) ]> (body request).

(** What the palette POST does once the palette has passed the loop. *)
Definition insert_palette (palette : object) : handler response :=
  try_catch
    (id ← await (Insert "palettes" palette "id");
     Done (json 201 (VObject {[ "id" := first id ]})))
    (fun error => Done (json 500 (error_of error))).

End Handlers.

(** The routes of [app.js]. *)
Inductive route : Type :=
| GetProjects
| GetPalette
| PostPalette
| PostProject
| DeletePalette.

Definition app (Number : string -> number) (r : route) : request -> handler response :=
  match r with
  | GetProjects => get_projects
  | GetPalette => get_palette
  | PostPalette => post_palette Number
  | PostProject => post_project
  | DeletePalette => delete_palette
  end.

(** ** The handlers that are not in the source *)

Definition is_hex (c : ascii) : bool :=
  let n := nat_of_ascii c in
  (Nat.leb 48 n && Nat.leb n 57) || (Nat.leb 65 n && Nat.leb n 70)
  || (Nat.leb 97 n && Nat.leb n 102).

Definition lower_ascii (c : ascii) : ascii :=
  let n := nat_of_ascii c in
  if Nat.leb 65 n && Nat.leb n 90 then ascii_of_nat (n + 32) else c.

Fixpoint lower (s : string) : string :=
  match s with
  | "" => ""
  | String c s' => String (lower_ascii c) (lower s')
  end.

Fixpoint starts_with (p s : string) : bool :=
  match p, s with
  | "", _ => true
  | String _ _, "" => false
  | String a p', String b s' => Ascii.eqb a b && starts_with p' s'
  end.

Fixpoint contains (sub s : string) : bool :=
  starts_with sub s
  || match s with
     | "" => false
     | String _ s' => contains sub s'
     end.

(** Exactly six characters, each a hexadecimal digit. *)
Definition well_formed_color (color : string) : bool :=
  Nat.eqb (String.length color) 6 && forallb is_hex (String.list_ascii_of_string color).

Definition color_fields : list string :=
  ["color_one"; "color_two"; "color_three"; "color_four"; "color_five"].

(** Some colour of the row contains the fragment, whatever the case of the
    letters. *)
Definition has_color (color : string) (row : object) : bool :=
  existsb
    (fun field =>
       match row !! field with
       | Some (VString c) => contains (lower color) (lower c)
       | _ => false
       end)
    color_fields.

Definition palette_has_color (color : string) (palette : value) : bool :=
  match palette with
  | VObject row => has_color color row
  | _ => false
  end.

Definition malformed_color : string :=
  "Expected query format is: " +:+ dq +:+ "?color=" +:+ dq
  +:+ " + <6 character hex code>.  Do not include " +:+ dq +:+ "#" +:+ dq
  +:+ " before the hex characters.".

(** Modelled from the spec: the handler of GET /api/v1/palettes is not in
    the source, only its tests are. Section 4.1 of the spec: without a
    [color] query parameter, all palettes, status 200; with a parameter of
    six hexadecimal characters, the palettes in which one of the five colour
    fields contains the fragment, case-insensitively; with a parameter of
    any other shape, 422 with a fixed message (the one the tests expect);
    500 with [{error}] when the datastore fails. *)
Definition get_palettes (request : request) : handler response :=
  match query_color request with
  | None =>
      try_catch
        (palettes ← await (Select "palettes");
         Done (json 200 (VObject {[ "palettes" := VArray palettes ]})))
        (fun error => Done (json 500 (error_of error)))
  | Some color =>
      if well_formed_color color
      then
        try_catch
          (palettes ← await (Select "palettes");
           Done (json 200
                   (VObject {[ "palettes" :=
                       VArray (List.filter (palette_has_color color) palettes) ]})))
          (fun error => Done (json 500 (error_of error)))
      else Done (json 422 (error_of (VString malformed_color)))
  end.

Definition only_name : string :=
  "Expected body format is: { name: <String> }. You must send only the required "
  +:+ dq +:+ "name" +:+ dq +:+ " property.".

Definition not_found (noun id : string) : string :=
  "Could not find " +:+ noun +:+ " with an id of " +:+ id.

(** Modelled from the spec: the PATCH handlers are not in the source, only
    their tests are. Section 4.1 of the spec: the body must contain exactly
    [{name}], and a body with any other property is answered 422 with a
    fixed message (the one the tests expect); a target id that is not found
    is answered 404; otherwise the name of the row is updated and the answer
    is 200 with [{id}]; 500 with [{error}] when the datastore fails. The
    body is checked first, as the POST handlers of the source do. *)
Definition patch (table noun : string) (request : request) : handler response :=
  let id := params_id request in
  if decide (dom (body request) = {[ "name" ]})
  then
    try_catch
      (found ← await (Where table "id" (VString id));
       if nonempty found
       then
         updated ← await (Update table "id" (VString id)
                            {[ "name" := get (body request) "name" ]} "id");
         Done (json 200 (VObject {[ "id" := first updated ]}))
       else Done (json 404 (error_of (VString (not_found noun id)))))
      (fun error => Done (json 500 (error_of error)))
  else Done (json 422 (error_of (VString only_name))).

Definition patch_project : request -> handler response := patch "projects" "project".
Definition patch_palette : request -> handler response := patch "palettes" "palette".

(** ** What a handler can do: its runs *)

(** One query-builder call together with the way it ended. *)
Inductive event : Type :=
| Issued {R : Type} (q : query R) (o : outcome R).

(** A handler ends by sending a response, or by rejecting: nothing in the
    application catches that, and no response is sent. *)
Inductive result (A : Type) : Type :=
| Responded (a : A)
| Uncaught (e : value).
Arguments Responded {A} a.
Arguments Uncaught {A} e.

(** [exec h tr res]: against a datastore that answers the calls of [h] as
    recorded in [tr], the handler ends with [res]. *)
Inductive exec {A : Type} : handler A -> list event -> result A -> Prop :=
| exec_done a : exec (Done a) [] (Responded a)
| exec_throw e : exec (Throw e) [] (Uncaught e)
| exec_await {R} (q : query R) k o tr res :
    exec (k o) tr res -> exec (Await q k) (Issued q o :: tr) res.

(** The error of a call that was rejected. *)
Definition rejection (ev : event) : option value :=
  match ev with
  | Issued _ (Rejected e) => Some e
  | Issued _ (Resolved _) => None
  end.

(** The row a call inserts, if it is an insert. *)
Definition inserted (ev : event) : option (string * object) :=
  match ev with
  | Issued (Insert table row _) _ => Some (table, row)
  | Issued _ _ => None
  end.

(** [h] waits on [q] and goes on with [resolved] or [rejected]. *)
Definition awaits {A R} (h : handler A) (q : query R)
    (resolved : R -> handler A) (rejected : value -> handler A) : Prop :=
  exists k, h = Await q k /\
    (forall r, k (Resolved r) = resolved r) /\
    (forall e, k (Rejected e) = rejected e).

(** The [error] property of the JSON a handler answered with. *)
Definition error_sent (res : result response) : option value :=
  match res with
  | Responded (Response _ (Json (VObject o))) => o !! "error"
  | _ => None
  end.

(** ** An in-memory datastore *)

(** Tables are lists of rows, looked up by name. [serial] is the next
    generated id. [faults] schedules failures: every call consumes the head
    of the list, and fails with the error found there, if any. *)
Record store : Type := Store {
  tables : gmap string (list object);
  serial : Z;
  faults : list (option value)
}.

Definition with_table (s : store) (table : string) (rows : list object) : store :=
  Store (<[ table := rows ]> (tables s)) (serial s) (faults s).

Definition no_such_table (table : string) : value :=
  VObject {[ "message" := VString ("relation " +:+ table +:+ " does not exist") ]}.

Section Datastore.

(** How the datastore compares a stored column value with a bound
    parameter. *)
Variable sql_eq : value -> value -> bool.

Definition matches (column : string) (v : value) (row : object) : bool :=
  match row !! column with
  | Some x => sql_eq x v
  | None => false
  end.

(** The rows of the palettes table whose id is the one of the path. *)
Definition has_id (id : string) : object -> bool := matches "id" (VString id).

(** The table after the update of the rows of that id. *)
Definition renamed (id : string) (name : value) (rows : list object) : list object :=
  (fun row => if has_id id row then <[ "name" := name ]> row else row) <$> rows.

(** The row as stored: the datastore supplies the id when the row has none. *)
Definition stored (s : store) (row : object) : object :=
  match row !! "id" with
  | Some _ => row
  | None => <[ "id" := VNumber (number_of_Z (serial s)) ]> row
  end.

(** The answer of a datastore that is up, and its next state. *)
Definition answer {R} (q : query R) (s : store) : outcome R * store :=
  match q in query R return outcome R * store with
  | Select table =>
      match tables s !! table with
      | Some rows => (Resolved (VObject <$> rows), s)
      | None => (Rejected (no_such_table table), s)
      end
  | Where table column v =>
      match tables s !! table with
      | Some rows => (Resolved (VObject <$> List.filter (matches column v) rows), s)
      | None => (Rejected (no_such_table table), s)
      end
  | Insert table row returning =>
      match tables s !! table with
      | Some rows =>
          let row' := stored s row in
          (Resolved [get row' returning],
           Store (<[ table := rows ++ [row'] ]> (tables s)) (serial s + 1) (faults s))
      | None => (Rejected (no_such_table table), s)
      end
  | Update table column v changes returning =>
      match tables s !! table with
      | Some rows =>
          let hit := List.filter (matches column v) rows in
          (Resolved ((fun row => get (changes ∪ row) returning) <$> hit),
           with_table s table
             ((fun row => if matches column v row then changes ∪ row else row) <$> rows))
      | None => (Rejected (no_such_table table), s)
      end
  | Del table column v =>
      match tables s !! table with
      | Some rows =>
          (Resolved (length (List.filter (matches column v) rows)),
           with_table s table (List.filter (fun row => negb (matches column v row)) rows))
      | None => (Rejected (no_such_table table), s)
      end
  end.

(** One call: the scheduled fault, or the answer. *)
Definition call {R} (q : query R) (s : store) : outcome R * store :=
  match faults s with
  | Some e :: rest => (Rejected e, Store (tables s) (serial s) rest)
  | None :: rest => answer q (Store (tables s) (serial s) rest)
  | [] => answer q s
  end.

(** A handler run against the datastore. *)
Fixpoint run {A} (h : handler A) (s : store) : result A * store :=
  match h with
  | Done a => (Responded a, s)
  | Throw e => (Uncaught e, s)
  | Await q k => let '(o, s') := call q s in run (k o) s'
  end.

(** The calls of that run, in order. *)
Fixpoint calls {A} (h : handler A) (s : store) : list event :=
  match h with
  | Done _ | Throw _ => []
  | Await q k => let '(o, s') := call q s in Issued q o :: calls (k o) s'
  end.

End Datastore.

(** ** A concrete conversion and a concrete comparison

    [Number] and the datastore's comparison are parameters of the
    development. The instances below read decimal integer literals the way
    [Number] does, and are used to run the handlers on examples. *)

Definition digit (c : ascii) : option Z :=
  let n := Z.of_N (N_of_ascii c) in
  if decide (48 ≤ n ≤ 57)%Z then Some (n - 48)%Z else None.

Fixpoint digits (s : string) (acc : Z) : option Z :=
  match s with
  | "" => Some acc
  | String c s' =>
      match digit c with
      | Some d => digits s' (10 * acc + d)%Z
      | None => None
      end
  end.

Definition decimal (s : string) : option number :=
  match s with
  | "" => None
  | String "-"%char "" => None
  | String "-"%char s' =>
      z ← digits s' 0;
      Some (if decide (z = 0%Z) then S754_zero true else number_of_Z (- z))
  | _ => number_of_Z <$> digits s 0
  end.

Definition Number_decimal (s : string) : number := default S754_nan (decimal s).

Definition sql_eq_decimal (x v : value) : bool :=
  match x, v with
  | VNumber a, VNumber b => SFeqb a b
  | VNumber a, VString s =>
      match decimal s with
      | Some b => SFeqb a b
      | None => false
      end
  | VString a, VString b => String.eqb a b
  | _, _ => false
  end.

(** ** Sample requests and datastores *)

(** A body with an own [hasOwnProperty] and nothing else. *)
Definition shadowing_body : object := {[ "hasOwnProperty" := VBool true ]}.

(** A complete palette. *)
Definition new_palette : object :=
  {[ "name" := VString "new palette";
     "color_one" := VString "#111111";
     "color_two" := VString "#222222";
     "color_three" := VString "#333333";
     "color_four" := VString "#444444";
     "color_five" := VString "#555555" ]}.

(** A complete palette whose body also supplies a [projects_id], posted
    under project 7. *)
Definition post_request : request :=
  Request "7" None (<[ "projects_id" := VNumber (number_of_Z 99) ]> new_palette).

(** A body whose name is the empty string. *)
Definition empty_name_request : request := Request "" None {[ "name" := VString "" ]}.

(** A datastore with one project and two palettes, and no fault scheduled. *)
Definition project_row (id : Z) (name : string) : object :=
  {[ "id" := VNumber (number_of_Z id); "name" := VString name ]}.

Definition palette_row (id : Z) (name : string) (projects_id : Z) : object :=
  {[ "id" := VNumber (number_of_Z id);
     "name" := VString name;
     "color_one" := VString "#111111";
     "color_two" := VString "#FFFFFF";
     "color_three" := VString "#333333";
     "color_four" := VString "#444444";
     "color_five" := VString "#555555";
     "projects_id" := VNumber (number_of_Z projects_id) ]}.

Definition seeded : store :=
  Store {[ "projects" := [project_row 1 "Project 1"];
           "palettes" := [palette_row 1 "warm" 1; palette_row 2 "cold" 1] ]}
    3 [].

(** Three palettes: white is the second colour of the first and the fifth
    of the third, and no colour of the second. *)
Definition colored : store :=
  Store {[ "projects" := [project_row 1 "Project 1"];
           "palettes" :=
             [palette_row 1 "new palette one" 1;
              <[ "color_two" := VString "#222222" ]> (palette_row 2 "dark" 1);
              <[ "color_two" := VString "#222222" ]>
                (<[ "color_five" := VString "#ffffff" ]>
                   (palette_row 3 "new palette two" 1))] ]}
    4 [].

(** ** Observations on runs *)

(** The table a call addresses. *)
Definition addressed (ev : event) : string :=
  match ev with
  | Issued (Select table) _
  | Issued (Where table _ _) _
  | Issued (Insert table _ _) _
  | Issued (Update table _ _ _ _) _
  | Issued (Del table _ _) _ => table
  end.

(** Whether a call asks the datastore to change a table. *)
Definition writes (ev : event) : bool :=
  match ev with
  | Issued (Insert _ _ _) _ | Issued (Update _ _ _ _ _) _ | Issued (Del _ _ _) _ => true
  | Issued (Select _) _ | Issued (Where _ _ _) _ => false
  end.

(** What a call removes, if it is a removal: table, column and value. *)
Definition removal (ev : event) : option (string * string * value) :=
  match ev with
  | Issued (Del table column v) _ => Some (table, column, v)
  | Issued _ _ => None
  end.

(** The status of the response, if one was sent. *)
Definition status_of (res : result response) : option nat :=
  match res with
  | Responded a => Some (status a)
  | Uncaught _ => None
  end.

(** The one table each route of [app.js] passes to [database(...)]. *)
Definition route_table (r : route) : string :=
  match r with
  | GetProjects | PostProject => "projects"
  | GetPalette | PostPalette | DeletePalette => "palettes"
  end.

(** The statuses each route of [app.js] passes to [response.status(...)]. *)
Definition route_statuses (r : route) : list nat :=
  match r with
  | GetProjects => [200; 500]
  | GetPalette | DeletePalette => [200; 404; 500]
  | PostPalette | PostProject => [201; 422; 500]
  end.

(** The names of the palette a body must supply itself. *)
Definition body_parameters : list string :=
  ["name"; "color_one"; "color_two"; "color_three"; "color_four"; "color_five"].

(** * Properties *)

(** ** The concrete conversion and comparison *)

Example Number_decimal_12 : Number_decimal "12" = S754_finite false 6755399441055744 (-49).
Proof. reflexivity. Qed.

Example Number_decimal_abc : Number_decimal "abc" = S754_nan.
Proof. reflexivity. Qed.

Example sql_eq_decimal_12 : sql_eq_decimal (VNumber (number_of_Z 12)) (VString "12") = true.
Proof. reflexivity. Qed.

Example sql_eq_decimal_minus_4 :
  sql_eq_decimal (VNumber (number_of_Z 12)) (VString "-4") = false.
Proof. reflexivity. Qed.

(** ** Runs *)

(** Inversion of a run by the shape of the handler. *)
Lemma exec_inv {A} (h : handler A) tr res :
  exec h tr res ->
  match h with
  | Done a => tr = [] /\ res = Responded a
  | Throw e => tr = [] /\ res = Uncaught e
  | Await q k => exists o tr', tr = Issued q o :: tr' /\ exec (k o) tr' res
  end.
Proof. destruct 1; eauto. Qed.

Ltac exec_inv H :=
  apply exec_inv in H; simpl in H;
  repeat match type of H with
    | _ /\ _ => let H' := fresh H in destruct H as [H' H]; try subst
    | exists _, _ => let x := fresh "x" in destruct H as [x H]
    end.

(** A handler run against the datastore is one of its runs, whatever the
    datastore does. *)
Lemma run_exec sql_eq {A} (h : handler A) s :
  exec h (calls sql_eq h s) (run sql_eq h s).1.
Proof.
  revert s. induction h as [a | e | R q k IH]; intros s; simpl.
  - constructor.
  - constructor.
  - destruct (call sql_eq q s) as [o s']. constructor. apply IH.
Qed.

(** A datastore without scheduled faults answers, and schedules none. *)
Lemma call_no_faults sql_eq {R} (q : query R) s :
  faults s = [] -> call sql_eq q s = answer sql_eq q s.
Proof. unfold call. by intros ->. Qed.

(** ** The required parameters of a palette *)

Lemma hasOwnProperty_unshadowed (o : object) p :
  o !! "hasOwnProperty" = None ->
  hasOwnProperty o p = Done (bool_decide (is_Some (o !! p))).
Proof. unfold hasOwnProperty. by intros ->. Qed.

Lemma hasOwnProperty_shadowed (o : object) p :
  is_Some (o !! "hasOwnProperty") ->
  hasOwnProperty o p = Throw (TypeError "palette.hasOwnProperty is not a function").
Proof. unfold hasOwnProperty. by intros [v ->]. Qed.

(** Without an own [hasOwnProperty], the loop answers 422 for the first
    parameter that is missing, and falls through when none is. *)
Lemma for_required_unshadowed (palette : object) parameters rest :
  palette !! "hasOwnProperty" = None ->
  (exists before p after,
      parameters = before ++ p :: after /\
      Forall (fun q => is_Some (palette !! q)) before /\
      palette !! p = None /\
      for_required palette parameters rest
      = Done (send 422 (error_of (VString (missing_palette_property p)))))
  \/ (Forall (fun q => is_Some (palette !! q)) parameters /\
      for_required palette parameters rest = rest).
Proof.
  intros Hplain. induction parameters as [| p parameters IH].
  - right. split; [constructor | done].
  - simpl. rewrite (hasOwnProperty_unshadowed _ _ Hplain). simpl.
    destruct (palette !! p) as [v |] eqn:Hp.
    + rewrite bool_decide_eq_true_2 by eauto. simpl.
      destruct IH as [(before & q & after & -> & Hbefore & Hq & ->) | [Hall ->]].
      * left. exists (p :: before), q, after. repeat split; try done.
        constructor; eauto.
      * right. split; [| done]. constructor; eauto.
    + rewrite bool_decide_eq_false_2 by (intros [? ?]; done). simpl.
      left. exists [], p, parameters. repeat split; try done.
Qed.

(** With an own [hasOwnProperty], the first test of the loop throws. *)
Lemma for_required_shadowed (palette : object) p parameters rest :
  is_Some (palette !! "hasOwnProperty") ->
  for_required palette (p :: parameters) rest
  = Throw (TypeError "palette.hasOwnProperty is not a function").
Proof. intros Hshadow. simpl. by rewrite hasOwnProperty_shadowed. Qed.

(** ** POST /api/v1/projects/:id/palettes *)

Section PostPalette.

Variable Number : string -> number.

Lemma post_palette_unfold request :
  post_palette Number request
  = for_required (palette_of Number request) required_palette_parameters
      (insert_palette (palette_of Number request)).
Proof. reflexivity. Qed.

Lemma palette_of_hasOwnProperty request :
  palette_of Number request !! "hasOwnProperty" = body request !! "hasOwnProperty".
Proof. unfold palette_of. by rewrite lookup_insert_ne. Qed.

(** A body with a property named [hasOwnProperty] makes the handler throw
    before it answers or inserts anything. *)
Lemma post_palette_shadowed request :
  is_Some (body request !! "hasOwnProperty") ->
  post_palette Number request
  = Throw (TypeError "palette.hasOwnProperty is not a function").
Proof.
  intros Hshadow. rewrite post_palette_unfold.
  apply for_required_shadowed. by rewrite palette_of_hasOwnProperty.
Qed.

(** For any other body that lacks a required parameter, the handler
    answers 422 naming the first one missing in the order of the loop,
    without a query. *)
Lemma post_palette_missing request before p after :
  body request !! "hasOwnProperty" = None ->
  required_palette_parameters = before ++ p :: after ->
  Forall (fun q => is_Some (palette_of Number request !! q)) before ->
  palette_of Number request !! p = None ->
  post_palette Number request
  = Done (send 422 (error_of (VString (missing_palette_property p)))).
Proof.
  intros Hplain Hsplit Hbefore Hp. rewrite post_palette_unfold.
  rewrite <- palette_of_hasOwnProperty in Hplain.
  destruct (for_required_unshadowed (palette_of Number request)
              required_palette_parameters
              (insert_palette (palette_of Number request)) Hplain)
    as [(before' & p' & after' & Hsplit' & Hbefore' & Hp' & ->) | [Hall _]].
  - rewrite Hsplit in Hsplit'.
    assert (length before = length before') as Hlen.
    { destruct (Nat.lt_total (length before) (length before'))
        as [Hlt | [Heq | Hgt]]; [exfalso | done | exfalso].
      - assert (before' !! length before = Some p) as Hin.
        { rewrite <- (lookup_app_l _ (p' :: after')) by done.
          rewrite <- Hsplit'. by rewrite list_lookup_middle. }
        apply list_elem_of_lookup_2 in Hin.
        rewrite Forall_forall in Hbefore'. apply Hbefore' in Hin.
        rewrite Hp in Hin. by destruct Hin.
      - assert (before !! length before' = Some p') as Hin.
        { rewrite <- (lookup_app_l _ (p :: after)) by done.
          rewrite Hsplit'. by rewrite list_lookup_middle. }
        apply list_elem_of_lookup_2 in Hin.
        rewrite Forall_forall in Hbefore. apply Hbefore in Hin.
        rewrite Hp' in Hin. by destruct Hin. }
    apply app_inj_1 in Hsplit' as [_ [= ->]]; done.
  - exfalso. rewrite Hsplit in Hall.
    apply Forall_app in Hall as [_ Hall]. apply Forall_cons in Hall as [Hsome _].
    rewrite Hp in Hsome. by destruct Hsome.
Qed.

(** For any other body that has them all, the handler inserts the
    palette. *)
Lemma post_palette_complete request :
  body request !! "hasOwnProperty" = None ->
  Forall (fun q => is_Some (body request !! q))
    ["name"; "color_one"; "color_two"; "color_three"; "color_four"; "color_five"] ->
  post_palette Number request = insert_palette (palette_of Number request).
Proof.
  intros Hplain Hall. rewrite post_palette_unfold.
  rewrite <- palette_of_hasOwnProperty in Hplain.
  destruct (for_required_unshadowed (palette_of Number request)
              required_palette_parameters
              (insert_palette (palette_of Number request)) Hplain)
    as [(before & p & after & Hsplit & _ & Hp & _) | [_ ->]]; [exfalso | done].
  assert (p ∈ required_palette_parameters) as Hin
    by (rewrite Hsplit; set_solver).
  unfold palette_of in Hp. apply lookup_insert_None in Hp as [Hp Hne].
  rewrite Forall_forall in Hall. destruct (Hall p) as [v Hv]; [| congruence].
  unfold required_palette_parameters in Hin.
  rewrite !elem_of_cons, elem_of_nil in Hin. rewrite !elem_of_cons.
  intuition congruence.
Qed.

(** The only responses and queries of the handler. *)
Lemma post_palette_cases request :
  post_palette Number request
  = Throw (TypeError "palette.hasOwnProperty is not a function")
  \/ (exists p, p ∈ required_palette_parameters /\
        palette_of Number request !! p = None /\
        post_palette Number request
        = Done (send 422 (error_of (VString (missing_palette_property p)))))
  \/ post_palette Number request = insert_palette (palette_of Number request).
Proof.
  destruct (body request !! "hasOwnProperty") as [v |] eqn:Hshadow.
  - left. apply post_palette_shadowed. eauto.
  - right. rewrite post_palette_unfold.
    rewrite <- palette_of_hasOwnProperty in Hshadow.
    destruct (for_required_unshadowed (palette_of Number request)
                required_palette_parameters
                (insert_palette (palette_of Number request)) Hshadow)
      as [(before & p & after & Hsplit & _ & Hp & ->) | [_ ->]].
    + left. exists p. split; [| done]. rewrite Hsplit. set_solver.
    + by right.
Qed.

End PostPalette.

Lemma append_inv_head (s a b : string) : s +:+ a = s +:+ b -> a = b.
Proof. induction s as [| c s IH]; simpl; [done |]. intros [= H]. auto. Qed.

Lemma error_sent_send code e :
  error_sent (Responded (send code (error_of e))) = Some e.
Proof. unfold error_of. simpl. apply lookup_singleton_eq. Qed.

Lemma send_error_inj code (a b : string) :
  Responded (send code (error_of (VString a)))
  = Responded (send code (error_of (VString b))) -> a = b.
Proof.
  intros H. apply (f_equal error_sent) in H.
  rewrite !error_sent_send in H. by injection H.
Qed.

(** The 422 messages of the palette POST tell the parameters apart. *)
Lemma missing_palette_property_projects_id p :
  p ∈ required_palette_parameters ->
  missing_palette_property p = missing_palette_property "projects_id" ->
  p = "projects_id".
Proof.
  intros Hin Heq. unfold missing_palette_property in Heq.
  do 2 apply append_inv_head in Heq.
  unfold required_palette_parameters in Hin.
  rewrite !elem_of_cons, elem_of_nil in Hin.
  destruct Hin as [-> | [-> | [-> | [-> | [-> | [-> | [-> | []]]]]]]];
    solve [done | discriminate Heq].
Qed.

(** C1: a body that lacks a required field is answered 422 naming the
    first missing field, without an insert. The handler misses this for the
    body [{"hasOwnProperty": true}], which lacks every required field of the
    body: the first test of the loop calls the body's own property, the
    handler throws a [TypeError] outside its [try], and no response is
    sent. *)
Theorem post_palette_missing_fields_uncaught :
  forall Number sql_eq s,
    let request := Request "1" None shadowing_body in
    body request !! "name" = None /\
    post_palette Number request
    = Throw (TypeError "palette.hasOwnProperty is not a function") /\
    run sql_eq (post_palette Number request) s
    = (Uncaught (TypeError "palette.hasOwnProperty is not a function"), s).
Proof.
  intros Number sql_eq s request.
  assert (post_palette Number request
          = Throw (TypeError "palette.hasOwnProperty is not a function")) as Heq
    by (apply post_palette_shadowed; by eexists).
  split; [done |]. split; [done |]. by rewrite Heq.
Qed.

(** C2: a body with [name] and the five colours is inserted with
    [projects_id] set from the path, and answered 201 with the id of the
    insert. The handler misses this for a complete palette that also
    carries a property named [hasOwnProperty]: it throws before the insert,
    issues no query and sends no response. *)
Theorem post_palette_complete_uncaught :
  forall Number sql_eq s,
    let request :=
      Request "1" None (<[ "hasOwnProperty" := VBool true ]> new_palette) in
    Forall (fun q => is_Some (body request !! q))
      ["name"; "color_one"; "color_two"; "color_three"; "color_four"; "color_five"] /\
    calls sql_eq (post_palette Number request) s = [] /\
    run sql_eq (post_palette Number request) s
    = (Uncaught (TypeError "palette.hasOwnProperty is not a function"), s).
Proof.
  intros Number sql_eq s request.
  assert (post_palette Number request
          = Throw (TypeError "palette.hasOwnProperty is not a function")) as Heq
    by (apply post_palette_shadowed; by eexists).
  split; [| by rewrite Heq].
  repeat (constructor; [by eexists |]). constructor.
Qed.

(** The 422 test of [app.test.js]: a palette without a name, posted with a
    [projects_id] of its own. *)
Example post_palette_without_name :
  post_palette Number_decimal
    (Request "1" None
       (<[ "projects_id" := VNumber (number_of_Z 1) ]> (delete "name" new_palette)))
  = Done (send 422 (error_of (VString (missing_palette_property "name")))).
Proof. reflexivity. Qed.

(** The 201 test of [app.test.js], against the sample datastore. *)
Example post_palette_created :
  run sql_eq_decimal (post_palette Number_decimal (Request "1" None new_palette)) seeded
  = (Responded (json 201 (VObject {[ "id" := VNumber (number_of_Z 3) ]})),
     Store
       (<[ "palettes" :=
             [palette_row 1 "warm" 1; palette_row 2 "cold" 1;
              <[ "id" := VNumber (number_of_Z 3) ]>
                (<[ "projects_id" := VNumber (number_of_Z 1) ]> new_palette)] ]>
          (tables seeded))
       4 []).
Proof. reflexivity. Qed.

(** C10: [projects_id] is set from the path parameter before the loop runs,
    over whatever the body supplied. So no run of the handler ends with the
    422 that names [projects_id], every row it inserts carries the number of
    the path parameter there, and a [projects_id] in the body changes
    nothing in what the handler does. *)
Theorem post_palette_projects_id Number request tr res :
  exec (post_palette Number request) tr res ->
  res ≠ Responded
          (send 422 (error_of (VString (missing_palette_property "projects_id")))) /\
  (forall ev table row,
      ev ∈ tr -> inserted ev = Some (table, row) ->
      row !! "projects_id" = Some (VNumber (Number (params_id request)))) /\
  (forall v,
      post_palette Number
        (Request (params_id request) (query_color request)
           (<[ "projects_id" := v ]> (body request)))
      = post_palette Number request).
Proof.
  intros Hexec. split; [| split].
  - destruct (post_palette_cases Number request)
      as [Heq | [(p & Hin & Hp & Heq) | Heq]]; rewrite Heq in Hexec.
    + exec_inv Hexec. discriminate.
    + exec_inv Hexec. intros Hmsg. apply send_error_inj in Hmsg.
      apply missing_palette_property_projects_id in Hmsg as ->; [| done].
      unfold palette_of in Hp. by rewrite lookup_insert_eq in Hp.
    + exec_inv Hexec. destruct x as [id | e]; simpl in Hexec; exec_inv Hexec;
        discriminate.
  - intros ev table row Hev Hins.
    destruct (post_palette_cases Number request)
      as [Heq | [(p & Hin & Hp & Heq) | Heq]]; rewrite Heq in Hexec.
    + exec_inv Hexec. by apply elem_of_nil in Hev.
    + exec_inv Hexec. by apply elem_of_nil in Hev.
    + exec_inv Hexec. destruct x as [id | e]; simpl in Hexec; exec_inv Hexec;
        apply list_elem_of_singleton in Hev as ->; simpl in Hins;
        injection Hins as <- <-; unfold palette_of; by rewrite lookup_insert_eq.
  - intros v. rewrite !post_palette_unfold. unfold palette_of. simpl.
    by rewrite insert_insert_eq.
Qed.

Lemma post_palette_projects_id_witness :
  let tr :=
    [Issued (Insert "palettes" (palette_of Number_decimal post_request) "id")
       (Resolved [VNumber (number_of_Z 1)])] in
  let res := Responded (json 201 (VObject {[ "id" := VNumber (number_of_Z 1) ]})) in
  exec (post_palette Number_decimal post_request) tr res /\
  res ≠ Responded
          (send 422 (error_of (VString (missing_palette_property "projects_id")))) /\
  (forall ev table row,
      ev ∈ tr -> inserted ev = Some (table, row) ->
      row !! "projects_id" = Some (VNumber (Number_decimal "7"))) /\
  (forall v,
      post_palette Number_decimal
        (Request "7" None (<[ "projects_id" := v ]> (body post_request)))
      = post_palette Number_decimal post_request).
Proof.
  intros tr res.
  assert (exec (post_palette Number_decimal post_request) tr res) as Hexec.
  { apply (exec_await
             (Insert "palettes" (palette_of Number_decimal post_request) "id")
             _ (Resolved [VNumber (number_of_Z 1)])).
    apply exec_done. }
  split; [exact Hexec |].
  exact (post_palette_projects_id Number_decimal post_request tr res Hexec).
Defined.

(** ** POST /api/v1/projects *)

(** Against C3 as stated: the body [{"name": ""}] contains a name, and is
    answered 422 all the same, without an insert: the handler tests the
    truth of the name, not its presence. *)
Lemma post_project_empty_name :
  body empty_name_request !! "name" = Some (VString "") /\
  post_project empty_name_request
  = Done (json 422 (error_of (VString missing_project_name))) /\
  forall sql_eq s, calls sql_eq (post_project empty_name_request) s = [].
Proof. repeat split. Qed.

(** The tests of [app.test.js]: an empty body, and a named project. *)
Example post_project_empty_body :
  post_project (Request "" None ∅)
  = Done (json 422 (error_of (VString missing_project_name))).
Proof. reflexivity. Qed.

Example post_project_created :
  run sql_eq_decimal
    (post_project (Request "" None {[ "name" := VString "Test Project" ]})) seeded
  = (Responded (json 201 (VObject {[ "id" := VNumber (number_of_Z 3) ]})),
     Store
       (<[ "projects" := [project_row 1 "Project 1"; project_row 3 "Test Project"] ]>
          (tables seeded))
       4 []).
Proof. reflexivity. Qed.

(** C3, as the handler has it: a body whose name is truthy (every non-empty
    string is) is inserted as it is, and answered 201 with the first id the
    insert returns, or 500 with the error when the insert is rejected; a
    body whose name is falsy (the empty string, [0], [false], [null]) or
    missing is answered 422 with the fixed message, without a query. *)
Theorem post_project_contract :
  (forall request,
      if truthy (get (body request) "name")
      then awaits (post_project request)
             (Insert "projects" (body request) "id")
             (fun id => Done (json 201 (VObject {[ "id" := first id ]})))
             (fun e => Done (json 500 (error_of e)))
      else post_project request
           = Done (json 422 (error_of (VString missing_project_name)))) /\
  (forall id color body,
      post_project (Request id color (delete "name" body))
      = Done (json 422 (error_of (VString missing_project_name)))) /\
  (forall c s, truthy (VString (String c s)) = true) /\
  truthy (VString "") = false /\ truthy (VNumber (S754_zero false)) = false /\
  truthy (VBool false) = false /\ truthy VNull = false.
Proof.
  split; [| split; [| repeat split]].
  - intros request. unfold post_project.
    destruct (truthy (get (body request) "name")); simpl; [| done].
    eexists. split; [reflexivity |]. split; intros; reflexivity.
  - intros id color body. unfold post_project, get. simpl.
    by rewrite lookup_delete_eq.
Qed.

(** ** Datastore failures *)

(** Follow a run through the outcomes of its calls. *)
Ltac follow H :=
  repeat (unfold mbind, handler_bind in H; cbn in H;
    lazymatch type of H with
    | exec (Done _) _ _ => apply exec_inv in H; destruct H as [-> ->]
    | exec (Throw _) _ _ => apply exec_inv in H; destruct H as [-> ->]
    | exec (Await _ _) _ _ =>
        let o := fresh "o" in
        let tr := fresh "tr" in
        apply exec_inv in H; destruct H as (o & tr & -> & H); destruct o
    | exec ?h _ _ =>
        lazymatch h with
        | context [nonempty ?l] => destruct l
        | context [match ?l with [] => _ | _ :: _ => _ end] => destruct l
        end
    end).

(** Find the rejected call among the calls of a run. *)
Ltac blame Hev Hrej :=
  repeat (apply elem_of_cons in Hev as [-> | Hev];
          [simpl in Hrej; congruence |]);
  by apply elem_of_nil in Hev.

(** C9: in every handler, a query-builder call that is rejected ends the
    run with status 500 and the body [{error}], where [error] is the error
    of the rejection; the run sends nothing else. *)
Theorem datastore_failure_500 Number r request tr res ev e :
  exec (app Number r request) tr res ->
  ev ∈ tr -> rejection ev = Some e ->
  res = Responded (json 500 (error_of e)).
Proof.
  intros Hexec Hev Hrej. destruct r; simpl in Hexec.
  - unfold get_projects in Hexec. follow Hexec; blame Hev Hrej.
  - unfold get_palette in Hexec. follow Hexec; blame Hev Hrej.
  - destruct (post_palette_cases Number request)
      as [Heq | [(p & _ & _ & Heq) | Heq]]; rewrite Heq in Hexec.
    + follow Hexec; blame Hev Hrej.
    + follow Hexec; blame Hev Hrej.
    + unfold insert_palette in Hexec. follow Hexec; blame Hev Hrej.
  - unfold post_project in Hexec.
    destruct (truthy (get (body request) "name")); follow Hexec; blame Hev Hrej.
  - unfold delete_palette in Hexec. follow Hexec; blame Hev Hrej.
Qed.

(** The lookup of palette 3 is rejected by the datastore. *)
Lemma datastore_failure_500_witness :
  let request := Request "3" None ∅ in
  let e := VObject {[ "message" := VString "connection refused" ]} in
  let ev := Issued (Where "palettes" "id" (VString "3")) (Rejected e) in
  exec (app Number_decimal DeletePalette request) [ev]
    (Responded (json 500 (error_of e))) /\
  ev ∈ [ev] /\ rejection ev = Some e /\
  Responded (json 500 (error_of e)) = Responded (json 500 (error_of e)).
Proof.
  intros request e ev.
  assert (exec (app Number_decimal DeletePalette request) [ev]
            (Responded (json 500 (error_of e)))) as Hexec.
  { apply (exec_await (Where "palettes" "id" (VString "3")) _ (Rejected e)).
    apply exec_done. }
  assert (ev ∈ [ev]) as Hev by apply list_elem_of_here.
  split; [exact Hexec |]. split; [exact Hev |]. split; [reflexivity |].
  exact (datastore_failure_500 Number_decimal DeletePalette request [ev]
           (Responded (json 500 (error_of e))) ev e Hexec Hev eq_refl).
Defined.

(** ** Looking a palette up, and deleting it *)

Lemma nonempty_rows (f : object -> bool) rows :
  nonempty (VObject <$> List.filter f rows) = existsb f rows.
Proof.
  induction rows as [| row rows IH]; simpl; [done |].
  destruct (f row); simpl; [done | exact IH].
Qed.

Lemma first_rows (f : object -> bool) rows :
  first (VObject <$> List.filter f rows)
  = match List.find f rows with
    | Some row => VObject row
    | None => VUndefined
    end.
Proof.
  induction rows as [| row rows IH]; simpl; [done |].
  destruct (f row); simpl; [done | exact IH].
Qed.

Lemma existsb_find (f : object -> bool) rows :
  existsb f rows = bool_decide (is_Some (List.find f rows)).
Proof.
  induction rows as [| row rows IH]; simpl; [done |].
  destruct (f row); simpl; [done | exact IH].
Qed.

Lemma existsb_elem_of (f : object -> bool) rows :
  existsb f rows = true <-> exists row, row ∈ rows /\ f row = true.
Proof.
  rewrite existsb_exists. split; intros (row & Hin & Hf); exists row;
    (split; [by apply list_elem_of_In | done]).
Qed.

Lemma filter_elem_of (f : object -> bool) rows row :
  row ∈ List.filter f rows <-> row ∈ rows /\ f row = true.
Proof. rewrite !list_elem_of_In. apply filter_In. Qed.

Section Palettes.

Variable sql_eq : value -> value -> bool.

Lemma run_get_palette request s rows :
  faults s = [] ->
  tables s !! "palettes" = Some rows ->
  run sql_eq (get_palette request) s
  = (Responded
       (match List.find (has_id sql_eq (params_id request)) rows with
        | Some palette => json 200 (VObject palette)
        | None => json 404 (error_of (VString (palette_not_found (params_id request))))
        end), s).
Proof.
  intros Hfaults Hrows. unfold get_palette. cbn.
  rewrite call_no_faults by done. cbn. rewrite Hrows. cbn.
  fold (has_id sql_eq (params_id request)).
  rewrite nonempty_rows, first_rows, existsb_find.
  by destruct (List.find (has_id sql_eq (params_id request)) rows).
Qed.

Lemma run_delete_palette request s rows :
  faults s = [] ->
  tables s !! "palettes" = Some rows ->
  run sql_eq (delete_palette request) s
  = if existsb (has_id sql_eq (params_id request)) rows
    then (Responded (Response 200 (Text (palette_removed (params_id request)))),
          with_table s "palettes"
            (List.filter (fun row => negb (has_id sql_eq (params_id request) row)) rows))
    else (Responded
            (json 404 (error_of (VString (palette_not_found (params_id request))))),
          s).
Proof.
  intros Hfaults Hrows. unfold delete_palette. cbn.
  rewrite call_no_faults by done. cbn. rewrite Hrows. cbn.
  fold (has_id sql_eq (params_id request)). rewrite nonempty_rows.
  destruct (existsb (has_id sql_eq (params_id request)) rows); cbn; [| done].
  rewrite call_no_faults by done. cbn. by rewrite Hrows.
Qed.

End Palettes.

Lemma find_removed (f : object -> bool) rows :
  List.find f (List.filter (fun row => negb (f row)) rows) = None.
Proof.
  induction rows as [| row rows IH]; simpl; [done |].
  destruct (f row) eqn:Hf; simpl; [exact IH |]. by rewrite Hf.
Qed.

Lemma find_elem_of (f : object -> bool) rows :
  (exists row, row ∈ rows /\ f row = true) ->
  exists row, List.find f rows = Some row /\ row ∈ rows /\ f row = true.
Proof.
  intros Hex. destruct (List.find f rows) as [row |] eqn:Hfind.
  - exists row. split; [done |]. apply find_some in Hfind as [Hin Hf].
    by rewrite list_elem_of_In.
  - destruct Hex as (row & Hin & Hf). apply list_elem_of_In in Hin.
    by rewrite (find_none _ _ Hfind row Hin) in Hf.
Qed.

Lemma find_not_elem_of (f : object -> bool) rows :
  (forall row, row ∈ rows -> f row = false) -> List.find f rows = None.
Proof.
  intros Hnone. destruct (List.find f rows) as [row |] eqn:Hfind; [| done].
  apply find_some in Hfind as [Hin Hf]. apply list_elem_of_In in Hin.
  by rewrite (Hnone row Hin) in Hf.
Qed.

(** C6: when the palettes table has a row of the requested id, the handler
    answers 200 with that row itself as the JSON body (the first such row,
    not an array and not an envelope); when it has none, it answers 404 with
    the body [{error: "Could not find palette with an id of <id>"}]. The
    datastore is left as it was. *)
Theorem get_palette_contract sql_eq request s rows :
  faults s = [] ->
  tables s !! "palettes" = Some rows ->
  let id := params_id request in
  ((exists row, row ∈ rows /\ has_id sql_eq id row = true) ->
   exists palette,
     List.find (has_id sql_eq id) rows = Some palette /\
     palette ∈ rows /\ has_id sql_eq id palette = true /\
     run sql_eq (get_palette request) s
     = (Responded (Response 200 (Json (VObject palette))), s)) /\
  ((forall row, row ∈ rows -> has_id sql_eq id row = false) ->
   run sql_eq (get_palette request) s
   = (Responded
        (Response 404
           (Json (VObject
              {[ "error" := VString ("Could not find palette with an id of " +:+ id) ]}))),
      s)).
Proof.
  intros Hfaults Hrows id. rewrite (run_get_palette sql_eq request s rows) by done.
  split.
  - intros Hex. apply find_elem_of in Hex as (palette & Hfind & Hin & Hid).
    exists palette. fold id. by rewrite Hfind.
  - intros Hnone. apply find_not_elem_of in Hnone. fold id. by rewrite Hnone.
Qed.

Lemma get_palette_contract_witness :
  let request := Request "2" None ∅ in
  let rows := [palette_row 1 "warm" 1; palette_row 2 "cold" 1] in
  faults seeded = [] /\
  tables seeded !! "palettes" = Some rows /\
  ((exists row, row ∈ rows /\ has_id sql_eq_decimal "2" row = true) ->
   exists palette,
     List.find (has_id sql_eq_decimal "2") rows = Some palette /\
     palette ∈ rows /\ has_id sql_eq_decimal "2" palette = true /\
     run sql_eq_decimal (get_palette request) seeded
     = (Responded (Response 200 (Json (VObject palette))), seeded)) /\
  ((forall row, row ∈ rows -> has_id sql_eq_decimal "2" row = false) ->
   run sql_eq_decimal (get_palette request) seeded
   = (Responded
        (Response 404
           (Json (VObject
              {[ "error" := VString ("Could not find palette with an id of " +:+ "2") ]}))),
      seeded)).
Proof.
  intros request rows.
  split; [reflexivity |]. split; [reflexivity |].
  exact (get_palette_contract sql_eq_decimal request seeded rows eq_refl eq_refl).
Defined.

Example get_palette_2 :
  run sql_eq_decimal (get_palette (Request "2" None ∅)) seeded
  = (Responded (json 200 (VObject (palette_row 2 "cold" 1))), seeded).
Proof. reflexivity. Qed.

Example get_palette_minus_11 :
  run sql_eq_decimal (get_palette (Request "-11" None ∅)) seeded
  = (Responded
       (json 404 (error_of (VString "Could not find palette with an id of -11"))),
     seeded).
Proof. reflexivity. Qed.

(** C4: when the palettes table has a row of the requested id, the handler
    deletes the rows of that id, keeps every other row, and answers 200 with
    the text "Palette with id <id> has been removed successfully"; when it
    has none, it answers 404 with the body
    [{error: "Could not find palette with an id of <id>"}] and leaves the
    datastore as it was. *)
Theorem delete_palette_contract sql_eq request s rows :
  faults s = [] ->
  tables s !! "palettes" = Some rows ->
  let id := params_id request in
  let kept := List.filter (fun row => negb (has_id sql_eq id row)) rows in
  ((exists row, row ∈ rows /\ has_id sql_eq id row = true) ->
   run sql_eq (delete_palette request) s
   = (Responded
        (Response 200
           (Text ("Palette with id " +:+ id +:+ " has been removed successfully"))),
      with_table s "palettes" kept)) /\
  ((forall row, row ∈ rows -> has_id sql_eq id row = false) ->
   run sql_eq (delete_palette request) s
   = (Responded
        (Response 404
           (Json (VObject
              {[ "error" := VString ("Could not find palette with an id of " +:+ id) ]}))),
      s)) /\
  (forall row, row ∈ kept <-> row ∈ rows /\ has_id sql_eq id row = false).
Proof.
  intros Hfaults Hrows id kept.
  rewrite (run_delete_palette sql_eq request s rows) by done. fold id.
  split; [| split].
  - intros Hex. apply existsb_elem_of in Hex. by rewrite Hex.
  - intros Hnone. apply find_not_elem_of in Hnone.
    rewrite existsb_find, Hnone. done.
  - intros row. unfold kept. rewrite filter_elem_of.
    by rewrite negb_true_iff.
Qed.

Lemma delete_palette_contract_witness :
  let request := Request "2" None ∅ in
  let rows := [palette_row 1 "warm" 1; palette_row 2 "cold" 1] in
  faults seeded = [] /\
  tables seeded !! "palettes" = Some rows /\
  (exists row, row ∈ rows /\ has_id sql_eq_decimal "2" row = true) /\
  run sql_eq_decimal (delete_palette request) seeded
  = (Responded
       (Response 200 (Text "Palette with id 2 has been removed successfully")),
     with_table seeded "palettes" [palette_row 1 "warm" 1]).
Proof.
  intros request rows.
  assert (exists row, row ∈ rows /\ has_id sql_eq_decimal "2" row = true) as Hex.
  { exists (palette_row 2 "cold" 1). split; [| reflexivity].
    apply list_elem_of_further, list_elem_of_here. }
  split; [reflexivity |]. split; [reflexivity |]. split; [exact Hex |].
  exact (proj1 (delete_palette_contract sql_eq_decimal request seeded rows
                  eq_refl eq_refl) Hex).
Defined.

Example delete_palette_minus_4 :
  run sql_eq_decimal (delete_palette (Request "-4" None ∅)) seeded
  = (Responded
       (json 404 (error_of (VString "Could not find palette with an id of -4"))),
     seeded).
Proof. reflexivity. Qed.

Lemma run_delete_palette_no_table sql_eq request s :
  faults s = [] ->
  tables s !! "palettes" = None ->
  run sql_eq (delete_palette request) s
  = (Responded (json 500 (error_of (no_such_table "palettes"))), s).
Proof.
  intros Hfaults Hnone. unfold delete_palette. cbn.
  rewrite call_no_faults by done. cbn. by rewrite Hnone.
Qed.

(** C5: after a DELETE of a palette id that was answered 200, a GET of the
    same id is answered 404, and a second DELETE of the same id is answered
    404 as well, not 500; neither changes the datastore, so the state after
    the second DELETE is the state after the first. *)
Theorem delete_palette_idempotent sql_eq request s s1 :
  faults s = [] ->
  run sql_eq (delete_palette request) s
  = (Responded (Response 200 (Text (palette_removed (params_id request)))), s1) ->
  run sql_eq (get_palette request) s1
  = (Responded
       (json 404 (error_of (VString (palette_not_found (params_id request))))), s1) /\
  run sql_eq (delete_palette request) s1
  = (Responded
       (json 404 (error_of (VString (palette_not_found (params_id request))))), s1).
Proof.
  intros Hfaults Hrun.
  destruct (tables s !! "palettes") as [rows |] eqn:Hrows.
  - rewrite (run_delete_palette sql_eq request s rows) in Hrun by done.
    destruct (existsb (has_id sql_eq (params_id request)) rows);
      [| discriminate Hrun].
    injection Hrun as <-.
    set (kept := List.filter _ rows).
    assert (tables (with_table s "palettes" kept) !! "palettes" = Some kept)
      as Hkept by apply lookup_insert_eq.
    split.
    + rewrite (run_get_palette sql_eq request _ kept) by done.
      unfold kept. by rewrite find_removed.
    + rewrite (run_delete_palette sql_eq request _ kept) by done.
      unfold kept. by rewrite existsb_find, find_removed.
  - rewrite run_delete_palette_no_table in Hrun by done. discriminate Hrun.
Qed.

Lemma delete_palette_idempotent_witness :
  let request := Request "2" None ∅ in
  let s1 := with_table seeded "palettes" [palette_row 1 "warm" 1] in
  faults seeded = [] /\
  run sql_eq_decimal (delete_palette request) seeded
  = (Responded (Response 200 (Text (palette_removed "2"))), s1) /\
  run sql_eq_decimal (get_palette request) s1
  = (Responded (json 404 (error_of (VString (palette_not_found "2")))), s1) /\
  run sql_eq_decimal (delete_palette request) s1
  = (Responded (json 404 (error_of (VString (palette_not_found "2")))), s1).
Proof.
  intros request s1.
  split; [reflexivity |]. split; [reflexivity |].
  exact (delete_palette_idempotent sql_eq_decimal request seeded s1 eq_refl eq_refl).
Defined.

(** ** GET /api/v1/palettes, with the colour query *)

Lemma starts_with_spec p s :
  starts_with p s = true <-> exists post, s = p +:+ post.
Proof.
  revert s. induction p as [| a p IH]; intros s; simpl.
  - split; [eauto | done].
  - destruct s as [| b s].
    + split; [done | by intros [post Hpost]].
    + rewrite andb_true_iff, Ascii.eqb_eq, IH. split.
      * intros [-> [post ->]]. eauto.
      * intros [post [= -> ->]]. eauto.
Qed.

Lemma contains_spec sub s :
  contains sub s = true <-> exists pre post, s = pre +:+ sub +:+ post.
Proof.
  induction s as [| b s IH]; simpl; rewrite orb_true_iff, starts_with_spec.
  - split.
    + intros [[post Hpost] | Hfalse]; [| done]. by exists "", post.
    + intros (pre & post & Heq). left. destruct pre; [| done]. eauto.
  - rewrite IH. split.
    + intros [[post Hpost] | (pre & post & ->)].
      * by exists "", post.
      * by exists (String b pre), post.
    + intros (pre & post & Heq). destruct pre as [| c pre]; simpl in Heq.
      * left. eauto.
      * right. injection Heq as -> ->. eauto.
Qed.

Lemma filter_palettes color rows :
  List.filter (palette_has_color color) (VObject <$> rows)
  = VObject <$> List.filter (has_color color) rows.
Proof.
  induction rows as [| row rows IH]; csimpl; [done |].
  destruct (has_color color row); csimpl; by rewrite IH.
Qed.

Lemma has_color_spec color (row : object) :
  has_color color row = true <->
  exists field c,
    field ∈ color_fields /\ row !! field = Some (VString c) /\
    exists pre post, lower c = pre +:+ lower color +:+ post.
Proof.
  unfold has_color. rewrite existsb_exists. split.
  - intros (field & Hin & Hc). apply list_elem_of_In in Hin.
    destruct (row !! field) as [[| | | | c | |] |] eqn:Hfield; try done.
    exists field, c. by rewrite <- contains_spec.
  - intros (field & c & Hin & Hfield & Hc). exists field.
    rewrite <- list_elem_of_In. split; [done |].
    rewrite Hfield. by rewrite contains_spec.
Qed.

(** C7: with a [color] parameter of six hexadecimal characters the answer
    is 200 with exactly the palettes of the table, in order, in which one of
    the five colour fields contains the fragment up to the case of the
    letters; with a [color] parameter of another shape it is 422 with the
    fixed message; without the parameter it is 200 with all palettes. *)
Theorem get_palettes_contract sql_eq request s rows :
  faults s = [] ->
  tables s !! "palettes" = Some rows ->
  match query_color request with
  | None =>
      run sql_eq (get_palettes request) s
      = (Responded (json 200 (VObject {[ "palettes" := VArray (VObject <$> rows) ]})), s)
  | Some color =>
      if well_formed_color color
      then
        exists found,
          run sql_eq (get_palettes request) s
          = (Responded
               (json 200 (VObject {[ "palettes" := VArray (VObject <$> found) ]})), s) /\
          found = List.filter (has_color color) rows /\
          forall row,
            row ∈ found <->
            row ∈ rows /\
            exists field c,
              field ∈ color_fields /\ row !! field = Some (VString c) /\
              exists pre post, lower c = pre +:+ lower color +:+ post
      else
        run sql_eq (get_palettes request) s
        = (Responded (json 422 (error_of (VString malformed_color))), s)
  end.
Proof.
  intros Hfaults Hrows. unfold get_palettes.
  destruct (query_color request) as [color |].
  - destruct (well_formed_color color); [| done].
    exists (List.filter (has_color color) rows). split; [| split; [done |]].
    + cbn. rewrite call_no_faults by done. cbn. rewrite Hrows. cbn.
      by rewrite filter_palettes.
    + intros row. by rewrite filter_elem_of, has_color_spec.
  - cbn. rewrite call_no_faults by done. cbn. by rewrite Hrows.
Qed.

Lemma get_palettes_contract_witness :
  let request := Request "" (Some "FFFFFF") ∅ in
  let rows :=
    [palette_row 1 "new palette one" 1;
     <[ "color_two" := VString "#222222" ]> (palette_row 2 "dark" 1);
     <[ "color_two" := VString "#222222" ]>
       (<[ "color_five" := VString "#ffffff" ]> (palette_row 3 "new palette two" 1))] in
  faults colored = [] /\
  tables colored !! "palettes" = Some rows /\
  exists found,
    run sql_eq_decimal (get_palettes request) colored
    = (Responded
         (json 200 (VObject {[ "palettes" := VArray (VObject <$> found) ]})), colored) /\
    found = List.filter (has_color "FFFFFF") rows /\
    forall row,
      row ∈ found <->
      row ∈ rows /\
      exists field c,
        field ∈ color_fields /\ row !! field = Some (VString c) /\
        exists pre post, lower c = pre +:+ lower "FFFFFF" +:+ post.
Proof.
  intros request rows.
  split; [reflexivity |]. split; [reflexivity |].
  exact (get_palettes_contract sql_eq_decimal request colored rows eq_refl eq_refl).
Defined.

Example get_palettes_white :
  run sql_eq_decimal (get_palettes (Request "" (Some "FFFFFF") ∅)) colored
  = (Responded
       (json 200
          (VObject {[ "palettes" :=
              VArray
                [VObject (palette_row 1 "new palette one" 1);
                 VObject
                   (<[ "color_two" := VString "#222222" ]>
                      (<[ "color_five" := VString "#ffffff" ]>
                         (palette_row 3 "new palette two" 1)))] ]})),
     colored).
Proof. reflexivity. Qed.

Example get_palettes_five_characters :
  run sql_eq_decimal (get_palettes (Request "" (Some "EEEEE") ∅)) colored
  = (Responded (json 422 (error_of (VString malformed_color))), colored).
Proof. reflexivity. Qed.

(** ** PATCH /api/v1/projects/:id and /api/v1/palettes/:id *)

Lemma first_fmap_filter (g : object -> value) (f : object -> bool) rows :
  first (g <$> List.filter f rows) = default VUndefined (g <$> List.find f rows).
Proof.
  induction rows as [| row rows IH]; simpl; [done |].
  destruct (f row); simpl; [done | exact IH].
Qed.

(** A body is exactly [{name}] when it has a name and nothing else. *)
Lemma only_name_dom (o : object) :
  dom o = {[ "name" ]} <-> exists name, o = {[ "name" := name ]}.
Proof.
  split.
  - intros Hdom.
    assert (is_Some (o !! "name")) as [name Hname].
    { apply elem_of_dom. rewrite Hdom. by apply elem_of_singleton. }
    exists name. apply map_eq. intros key.
    destruct (decide (key = "name")) as [-> | Hne].
    + by rewrite lookup_singleton_eq.
    + rewrite lookup_singleton_ne by done.
      apply not_elem_of_dom. rewrite Hdom. by rewrite elem_of_singleton.
  - intros [name ->]. apply dom_singleton_L.
Qed.

Lemma other_property_dom (o : object) key :
  key ≠ "name" -> is_Some (o !! key) -> dom o ≠ {[ "name" ]}.
Proof.
  intros Hne Hkey Hdom. apply elem_of_dom in Hkey.
  rewrite Hdom in Hkey. by apply elem_of_singleton in Hkey.
Qed.

Section Patch.

Variable sql_eq : value -> value -> bool.

Lemma run_patch_name table noun request s rows name :
  faults s = [] ->
  tables s !! table = Some rows ->
  body request = {[ "name" := name ]} ->
  run sql_eq (patch table noun request) s
  = match List.find (has_id sql_eq (params_id request)) rows with
    | Some target =>
        (Responded (json 200 (VObject {[ "id" := get target "id" ]})),
         with_table s table (renamed sql_eq (params_id request) name rows))
    | None =>
        (Responded (json 404 (error_of (VString (not_found noun (params_id request))))),
         s)
    end.
Proof.
  intros Hfaults Hrows Hbody. unfold patch.
  rewrite decide_True by (apply only_name_dom; eauto).
  cbn. rewrite call_no_faults by done. cbn. rewrite Hrows. cbn.
  fold (has_id sql_eq (params_id request)).
  rewrite nonempty_rows, existsb_find.
  destruct (List.find (has_id sql_eq (params_id request)) rows) as [target |] eqn:Hfind;
    cbn; [| done].
  rewrite call_no_faults by done. cbn. rewrite Hrows. cbn.
  fold (has_id sql_eq (params_id request)).
  rewrite (first_fmap_filter _ (has_id sql_eq (params_id request))), Hfind. cbn.
  rewrite Hbody. unfold get at 2. rewrite lookup_singleton_eq. cbn.
  f_equal.
  - unfold get. rewrite lookup_union_r by done. done.
  - unfold renamed. f_equal. apply list_fmap_ext. intros _ row _. cbn.
    destruct (has_id sql_eq (params_id request) row); [| done].
    by rewrite insert_union_singleton_l.
Qed.

Lemma run_patch_other table noun request s key :
  key ≠ "name" -> is_Some (body request !! key) ->
  run sql_eq (patch table noun request) s
  = (Responded (json 422 (error_of (VString only_name))), s).
Proof.
  intros Hne Hkey. unfold patch.
  by rewrite decide_False by (by eapply other_property_dom).
Qed.

End Patch.

(** C8: on a project or palette id that exists, a PATCH whose body is
    exactly [{name}] sets the name of the rows of that id, leaves their
    other fields and every other row as they were, and answers 200 with
    [{id}]; a PATCH whose body has any property other than [name] is
    answered 422 with the fixed message and changes nothing; a PATCH with a
    body [{name}] on an id that does not exist is answered 404. *)
Theorem patch_contract sql_eq table noun request s rows :
  faults s = [] ->
  tables s !! table = Some rows ->
  let id := params_id request in
  (forall name,
      body request = {[ "name" := name ]} ->
      (exists row, row ∈ rows /\ has_id sql_eq id row = true) ->
      exists target,
        List.find (has_id sql_eq id) rows = Some target /\
        run sql_eq (patch table noun request) s
        = (Responded (json 200 (VObject {[ "id" := get target "id" ]})),
           with_table s table
             ((fun row => if has_id sql_eq id row then <[ "name" := name ]> row else row)
                <$> rows)) /\
        forall (row : object) key,
          key ≠ "name" -> (<[ "name" := name ]> row) !! key = row !! key) /\
  (forall key,
      key ≠ "name" -> is_Some (body request !! key) ->
      run sql_eq (patch table noun request) s
      = (Responded (json 422 (error_of (VString only_name))), s)) /\
  (forall name,
      body request = {[ "name" := name ]} ->
      (forall row, row ∈ rows -> has_id sql_eq id row = false) ->
      run sql_eq (patch table noun request) s
      = (Responded (json 404 (error_of (VString (not_found noun id)))), s)).
Proof.
  intros Hfaults Hrows id. split; [| split].
  - intros name Hbody Hex.
    apply find_elem_of in Hex as (target & Hfind & _ & _).
    exists target. split; [done |]. split.
    + rewrite (run_patch_name sql_eq table noun request s rows name) by done.
      fold id. by rewrite Hfind.
    + intros row key Hne. by rewrite lookup_insert_ne.
  - intros key Hne Hkey. by eapply run_patch_other.
  - intros name Hbody Hnone. apply find_not_elem_of in Hnone.
    rewrite (run_patch_name sql_eq table noun request s rows name) by done.
    fold id. by rewrite Hnone.
Qed.

Lemma patch_contract_witness :
  let request := Request "2" None {[ "name" := VString "New and improved palette name" ]} in
  let rows := [palette_row 1 "warm" 1; palette_row 2 "cold" 1] in
  faults seeded = [] /\
  tables seeded !! "palettes" = Some rows /\
  body request = {[ "name" := VString "New and improved palette name" ]} /\
  (exists row, row ∈ rows /\ has_id sql_eq_decimal "2" row = true) /\
  exists target,
    List.find (has_id sql_eq_decimal "2") rows = Some target /\
    run sql_eq_decimal (patch_palette request) seeded
    = (Responded (json 200 (VObject {[ "id" := get target "id" ]})),
       with_table seeded "palettes"
         ((fun row =>
             if has_id sql_eq_decimal "2" row
             then <[ "name" := VString "New and improved palette name" ]> row
             else row) <$> rows)) /\
    forall (row : object) key,
      key ≠ "name" ->
      (<[ "name" := VString "New and improved palette name" ]> row) !! key = row !! key.
Proof.
  intros request rows.
  assert (exists row, row ∈ rows /\ has_id sql_eq_decimal "2" row = true) as Hex.
  { exists (palette_row 2 "cold" 1). split; [| reflexivity].
    apply list_elem_of_further, list_elem_of_here. }
  split; [reflexivity |]. split; [reflexivity |]. split; [reflexivity |].
  split; [exact Hex |].
  exact (proj1 (patch_contract sql_eq_decimal "palettes" "palette" request seeded rows
                  eq_refl eq_refl)
           (VString "New and improved palette name") eq_refl Hex).
Defined.

Example patch_palette_2 :
  run sql_eq_decimal
    (patch_palette (Request "2" None {[ "name" := VString "New and improved palette name" ]}))
    seeded
  = (Responded (json 200 (VObject {[ "id" := VNumber (number_of_Z 2) ]})),
     with_table seeded "palettes"
       [palette_row 1 "warm" 1; palette_row 2 "New and improved palette name" 1]).
Proof. reflexivity. Qed.

Example patch_palette_color_one :
  run sql_eq_decimal
    (patch_palette (Request "2" None {[ "color_one" := VString "#000000" ]})) seeded
  = (Responded (json 422 (error_of (VString only_name))), seeded).
Proof. reflexivity. Qed.

Example patch_project_minus_6 :
  run sql_eq_decimal
    (patch_project (Request "-6" None {[ "name" := VString "Updated Project Name" ]}))
    seeded
  = (Responded
       (json 404 (error_of (VString "Could not find project with an id of -6"))),
     seeded).
Proof. reflexivity. Qed.

(** The handlers modelled from the spec answer a rejected call the same way. *)
Lemma modelled_failure_500 request table noun tr res ev e :
  exec (get_palettes request) tr res \/ exec (patch table noun request) tr res ->
  ev ∈ tr -> rejection ev = Some e ->
  res = Responded (json 500 (error_of e)).
Proof.
  intros [Hexec | Hexec] Hev Hrej.
  - unfold get_palettes in Hexec.
    destruct (query_color request) as [color |];
      [destruct (well_formed_color color) |]; follow Hexec; blame Hev Hrej.
  - unfold patch in Hexec. case_decide; follow Hexec; blame Hev Hrej.
Qed.

(** * Further properties of the handlers of [app.js] *)

(** ** The calls a handler makes *)

Lemma run_await sql_eq {A R} (q : query R) (k : outcome R -> handler A) s :
  run sql_eq (Await q k) s
  = run sql_eq (k (call sql_eq q s).1) (call sql_eq q s).2.
Proof. simpl. by destruct (call sql_eq q s). Qed.

Lemma calls_await sql_eq {A R} (q : query R) (k : outcome R -> handler A) s :
  calls sql_eq (Await q k) s
  = Issued q (call sql_eq q s).1
    :: calls sql_eq (k (call sql_eq q s).1) (call sql_eq q s).2.
Proof. simpl. by destruct (call sql_eq q s). Qed.

(** A rejected call changes no table, and neither does a read. *)
Lemma call_quiet sql_eq {R} (q : query R) s :
  writes (Issued q (call sql_eq q s).1) = false
  \/ is_Some (rejection (Issued q (call sql_eq q s).1)) ->
  tables (call sql_eq q s).2 = tables s /\ serial (call sql_eq q s).2 = serial s.
Proof.
  unfold call. destruct (faults s) as [| [e |] rest]; [| done |];
    destruct q; simpl; destruct (tables s !! table); simpl;
    intros [Hw | [e He]]; done.
Qed.

(** A call changes no table but the one it addresses. *)
Lemma call_frame sql_eq {R} (q : query R) s t :
  t ≠ addressed (Issued q (call sql_eq q s).1) ->
  tables (call sql_eq q s).2 !! t = tables s !! t.
Proof.
  unfold call. destruct (faults s) as [| [e |] rest]; [| done |];
    destruct q; simpl; destruct (tables s !! table); simpl; intros Hne;
    try done; by rewrite lookup_insert_ne.
Qed.

Lemma run_quiet sql_eq {A} (h : handler A) s :
  (forall ev, ev ∈ calls sql_eq h s -> writes ev = false \/ is_Some (rejection ev)) ->
  tables (run sql_eq h s).2 = tables s /\ serial (run sql_eq h s).2 = serial s.
Proof.
  revert s. induction h as [a | e | R q k IH]; intros s Hquiet; [done | done |].
  rewrite run_await. rewrite calls_await in Hquiet.
  destruct (IH (call sql_eq q s).1 (call sql_eq q s).2) as [Htables Hserial].
  { intros ev Hev. apply Hquiet. by apply list_elem_of_further. }
  destruct (call_quiet sql_eq q s) as [Htables' Hserial'].
  { apply Hquiet. apply list_elem_of_here. }
  split; congruence.
Qed.

Lemma run_frame sql_eq {A} (h : handler A) s t :
  (forall ev, ev ∈ calls sql_eq h s -> t ≠ addressed ev) ->
  tables (run sql_eq h s).2 !! t = tables s !! t.
Proof.
  revert s. induction h as [a | e | R q k IH]; intros s Hframe; [done | done |].
  rewrite run_await. rewrite calls_await in Hframe.
  rewrite IH by (intros ev Hev; apply Hframe; by apply list_elem_of_further).
  apply call_frame. apply Hframe. apply list_elem_of_here.
Qed.

(** Decide every membership of an event in an explicit list of calls. *)
Ltac each_call :=
  repeat match goal with
    | H : _ ∈ [] |- _ => by apply elem_of_nil in H
    | H : _ ∈ _ :: _ |- _ => apply elem_of_cons in H as [-> | H]
    end.

(** The runs of each handler, by the calls they make and the way they end. *)
Lemma exec_get_projects request tr res :
  exec (get_projects request) tr res ->
  (exists projects,
      tr = [Issued (Select "projects") (Resolved projects)] /\
      res = Responded (json 200 (VObject {[ "projects" := VArray projects ]})))
  \/ (exists e,
      tr = [Issued (Select "projects") (Rejected e)] /\
      res = Responded (json 500 (error_of e))).
Proof. intros Hexec. unfold get_projects in Hexec. follow Hexec; eauto. Qed.

Lemma exec_get_palette request tr res :
  exec (get_palette request) tr res ->
  let lookup := Where "palettes" "id" (VString (params_id request)) in
  (exists palette palettes,
      tr = [Issued lookup (Resolved (palette :: palettes))] /\
      res = Responded (json 200 palette))
  \/ (tr = [Issued lookup (Resolved [])] /\
      res = Responded
              (json 404 (error_of (VString (palette_not_found (params_id request))))))
  \/ (exists e,
      tr = [Issued lookup (Rejected e)] /\ res = Responded (json 500 (error_of e))).
Proof. intros Hexec. unfold get_palette in Hexec. follow Hexec; eauto 6. Qed.

Lemma exec_insert_palette palette tr res :
  exec (insert_palette palette) tr res ->
  (exists id,
      tr = [Issued (Insert "palettes" palette "id") (Resolved id)] /\
      res = Responded (json 201 (VObject {[ "id" := first id ]})))
  \/ (exists e,
      tr = [Issued (Insert "palettes" palette "id") (Rejected e)] /\
      res = Responded (json 500 (error_of e))).
Proof. intros Hexec. unfold insert_palette in Hexec. follow Hexec; eauto. Qed.

Lemma exec_post_project request tr res :
  exec (post_project request) tr res ->
  (tr = [] /\ res = Responded (json 422 (error_of (VString missing_project_name))))
  \/ (exists id,
      tr = [Issued (Insert "projects" (body request) "id") (Resolved id)] /\
      res = Responded (json 201 (VObject {[ "id" := first id ]})))
  \/ (exists e,
      tr = [Issued (Insert "projects" (body request) "id") (Rejected e)] /\
      res = Responded (json 500 (error_of e))).
Proof.
  intros Hexec. unfold post_project in Hexec.
  destruct (truthy (get (body request) "name")); follow Hexec; eauto.
Qed.

Lemma exec_delete_palette request tr res :
  exec (delete_palette request) tr res ->
  let lookup := Where "palettes" "id" (VString (params_id request)) in
  let removal := Del "palettes" "id" (VString (params_id request)) in
  (exists row found n,
      tr = [Issued lookup (Resolved (row :: found)); Issued removal (Resolved n)] /\
      res = Responded (Response 200 (Text (palette_removed (params_id request)))))
  \/ (exists row found e,
      tr = [Issued lookup (Resolved (row :: found)); Issued removal (Rejected e)] /\
      res = Responded (json 500 (error_of e)))
  \/ (tr = [Issued lookup (Resolved [])] /\
      res = Responded
              (json 404 (error_of (VString (palette_not_found (params_id request))))))
  \/ (exists e,
      tr = [Issued lookup (Rejected e)] /\ res = Responded (json 500 (error_of e))).
Proof. intros Hexec. unfold delete_palette in Hexec. follow Hexec; eauto 10. Qed.

Lemma for_required_app (palette : object) l1 l2 rest :
  palette !! "hasOwnProperty" = None ->
  for_required palette (l1 ++ l2) rest
  = for_required palette l1 (for_required palette l2 rest).
Proof.
  intros Hplain. induction l1 as [| p l1 IH]; [done |].
  simpl. rewrite (hasOwnProperty_unshadowed _ _ Hplain). simpl.
  by destruct (bool_decide (is_Some (palette !! p))).
Qed.

Lemma body_parameters_projects_id q : q ∈ body_parameters -> q ≠ "projects_id".
Proof.
  unfold body_parameters. rewrite !elem_of_cons, elem_of_nil.
  intros Hq ->. intuition discriminate.
Qed.

Lemma palette_of_body Number request q :
  q ≠ "projects_id" -> palette_of Number request !! q = body request !! q.
Proof. intros Hq. unfold palette_of. by rewrite lookup_insert_ne. Qed.

(** The palette POST, by what the body supplies. *)
Lemma post_palette_by_body Number request :
  (is_Some (body request !! "hasOwnProperty") /\
   post_palette Number request
   = Throw (TypeError "palette.hasOwnProperty is not a function"))
  \/ (body request !! "hasOwnProperty" = None /\
      exists before p after,
        body_parameters = before ++ p :: after /\
        Forall (fun q => is_Some (body request !! q)) before /\
        body request !! p = None /\
        post_palette Number request
        = Done (send 422 (error_of (VString (missing_palette_property p)))))
  \/ (body request !! "hasOwnProperty" = None /\
      Forall (fun q => is_Some (body request !! q)) body_parameters /\
      post_palette Number request = insert_palette (palette_of Number request)).
Proof.
  destruct (body request !! "hasOwnProperty") as [v |] eqn:Hshadow.
  - left. split; [eauto |]. apply post_palette_shadowed. eauto.
  - right.
    assert (palette_of Number request !! "hasOwnProperty" = None) as Hplain
      by (by rewrite palette_of_hasOwnProperty).
    rewrite post_palette_unfold.
    change required_palette_parameters with (body_parameters ++ ["projects_id"]).
    rewrite for_required_app by done.
    assert (for_required (palette_of Number request) ["projects_id"]
              (insert_palette (palette_of Number request))
            = insert_palette (palette_of Number request)) as ->.
    { simpl. rewrite (hasOwnProperty_unshadowed _ _ Hplain). simpl.
      by rewrite bool_decide_eq_true_2
        by (unfold palette_of; rewrite lookup_insert_eq; eauto). }
    destruct (for_required_unshadowed (palette_of Number request) body_parameters
                (insert_palette (palette_of Number request)) Hplain)
      as [(before & p & after & Hsplit & Hbefore & Hp & ->) | [Hall ->]].
    + left. split; [done |]. exists before, p, after. split; [done |].
      assert (forall q, q ∈ before ++ p :: after -> q ≠ "projects_id") as Hne
        by (intros q Hq; apply body_parameters_projects_id; by rewrite Hsplit).
      split; [| split; [| done]].
      * rewrite Forall_forall in Hbefore |- *. intros q Hq.
        rewrite <- (palette_of_body Number) by (apply Hne; set_solver). auto.
      * rewrite <- (palette_of_body Number) by (apply Hne; set_solver). done.
    + right. split; [done |]. split; [| done].
      rewrite Forall_forall in Hall |- *. intros q Hq.
      rewrite <- (palette_of_body Number)
        by (by apply body_parameters_projects_id). auto.
Qed.

Lemma exec_post_palette Number request tr res :
  exec (post_palette Number request) tr res ->
  (is_Some (body request !! "hasOwnProperty") /\ tr = [] /\
   res = Uncaught (TypeError "palette.hasOwnProperty is not a function"))
  \/ (body request !! "hasOwnProperty" = None /\
      exists p, p ∈ body_parameters /\ body request !! p = None /\ tr = [] /\
        res = Responded
                (send 422 (error_of (VString (missing_palette_property p)))))
  \/ (body request !! "hasOwnProperty" = None /\
      exists id,
        tr = [Issued (Insert "palettes" (palette_of Number request) "id") (Resolved id)] /\
        res = Responded (json 201 (VObject {[ "id" := first id ]})))
  \/ (body request !! "hasOwnProperty" = None /\
      exists e,
        tr = [Issued (Insert "palettes" (palette_of Number request) "id") (Rejected e)] /\
        res = Responded (json 500 (error_of e))).
Proof.
  intros Hexec.
  destruct (post_palette_by_body Number request)
    as [[Hshadow Heq]
       | [(Hplain & before & p & after & Hsplit & _ & Hp & Heq)
         | (Hplain & _ & Heq)]];
    rewrite Heq in Hexec.
  - follow Hexec. by left.
  - follow Hexec. right. left. split; [done |]. exists p.
    split; [rewrite Hsplit; set_solver | done].
  - apply exec_insert_palette in Hexec as [(id & -> & ->) | (e & -> & ->)]; eauto 10.
Qed.

(** The runs of the application, route by route. *)
Lemma exec_app_cases Number r request tr res :
  exec (app Number r request) tr res ->
  match r with
  | GetProjects =>
      (exists projects,
          tr = [Issued (Select "projects") (Resolved projects)] /\
          res = Responded (json 200 (VObject {[ "projects" := VArray projects ]})))
      \/ (exists e,
          tr = [Issued (Select "projects") (Rejected e)] /\
          res = Responded (json 500 (error_of e)))
  | GetPalette =>
      let lookup := Where "palettes" "id" (VString (params_id request)) in
      (exists palette palettes,
          tr = [Issued lookup (Resolved (palette :: palettes))] /\
          res = Responded (json 200 palette))
      \/ (tr = [Issued lookup (Resolved [])] /\
          res = Responded
                  (json 404 (error_of (VString (palette_not_found (params_id request))))))
      \/ (exists e,
          tr = [Issued lookup (Rejected e)] /\ res = Responded (json 500 (error_of e)))
  | PostPalette =>
      (is_Some (body request !! "hasOwnProperty") /\ tr = [] /\
       res = Uncaught (TypeError "palette.hasOwnProperty is not a function"))
      \/ (body request !! "hasOwnProperty" = None /\
          exists p, p ∈ body_parameters /\ body request !! p = None /\ tr = [] /\
            res = Responded
                    (send 422 (error_of (VString (missing_palette_property p)))))
      \/ (body request !! "hasOwnProperty" = None /\
          exists id,
            tr = [Issued (Insert "palettes" (palette_of Number request) "id")
                    (Resolved id)] /\
            res = Responded (json 201 (VObject {[ "id" := first id ]})))
      \/ (body request !! "hasOwnProperty" = None /\
          exists e,
            tr = [Issued (Insert "palettes" (palette_of Number request) "id")
                    (Rejected e)] /\
            res = Responded (json 500 (error_of e)))
  | PostProject =>
      (tr = [] /\ res = Responded (json 422 (error_of (VString missing_project_name))))
      \/ (exists id,
          tr = [Issued (Insert "projects" (body request) "id") (Resolved id)] /\
          res = Responded (json 201 (VObject {[ "id" := first id ]})))
      \/ (exists e,
          tr = [Issued (Insert "projects" (body request) "id") (Rejected e)] /\
          res = Responded (json 500 (error_of e)))
  | DeletePalette =>
      let lookup := Where "palettes" "id" (VString (params_id request)) in
      let removal := Del "palettes" "id" (VString (params_id request)) in
      (exists row found n,
          tr = [Issued lookup (Resolved (row :: found)); Issued removal (Resolved n)] /\
          res = Responded (Response 200 (Text (palette_removed (params_id request)))))
      \/ (exists row found e,
          tr = [Issued lookup (Resolved (row :: found)); Issued removal (Rejected e)] /\
          res = Responded (json 500 (error_of e)))
      \/ (tr = [Issued lookup (Resolved [])] /\
          res = Responded
                  (json 404 (error_of (VString (palette_not_found (params_id request))))))
      \/ (exists e,
          tr = [Issued lookup (Rejected e)] /\ res = Responded (json 500 (error_of e)))
  end.
Proof.
  destruct r; simpl.
  - apply exec_get_projects.
  - apply exec_get_palette.
  - apply exec_post_palette.
  - apply exec_post_project.
  - apply exec_delete_palette.
Qed.

(** Take a run of the application apart. *)
Ltac app_cases H :=
  apply exec_app_cases in H;
  match type of H with
  | match ?r with _ => _ end => destruct r
  end;
  simpl in H;
  repeat match type of H with
    | _ \/ _ => destruct H as [H | H]
    end;
  repeat match type of H with
    | exists _, _ => let x := fresh "x" in destruct H as [x H]
    | _ /\ _ => let H' := fresh H in destruct H as [H' H]
    end;
  subst.

Ltac in_list := solve [repeat first [apply list_elem_of_here | apply list_elem_of_further]].

(** ** What the routes answer, and what they ask *)

(** X3: every response a route sends carries one of the statuses written in
    its handler: 200 or 500 for the list of projects; 200, 404 or 500 for a
    palette looked up or deleted; 201, 422 or 500 for a POST. *)
Theorem app_statuses Number r request tr res code :
  exec (app Number r request) tr res ->
  status_of res = Some code ->
  code ∈ route_statuses r.
Proof.
  intros Hexec Hcode. app_cases Hexec; simpl in Hcode;
    try discriminate Hcode; injection Hcode as <-; simpl; in_list.
Qed.

Lemma app_statuses_witness :
  exec (app Number_decimal PostProject (Request "" None ∅)) []
    (Responded (json 422 (error_of (VString missing_project_name)))) /\
  422 ∈ route_statuses PostProject.
Proof.
  assert (exec (app Number_decimal PostProject (Request "" None ∅)) []
            (Responded (json 422 (error_of (VString missing_project_name))))) as Hexec
    by apply exec_done.
  split; [exact Hexec |].
  exact (app_statuses Number_decimal PostProject (Request "" None ∅) [] _ 422
           Hexec eq_refl).
Defined.

(** X4: a run ends without a response exactly on the palette POST with a body
    that has a property named [hasOwnProperty]; every other route, and the
    palette POST on every other body, answers whatever the datastore
    does. *)
Theorem app_uncaught Number r request tr res :
  exec (app Number r request) tr res ->
  status_of res = None <->
  r = PostPalette /\ is_Some (body request !! "hasOwnProperty").
Proof.
  intros Hexec. app_cases Hexec; simpl; split;
    try discriminate; try done;
    try (intros [Hr _]; discriminate Hr);
    intros [_ [v Hv]]; congruence.
Qed.

Lemma app_uncaught_witness :
  exec (app Number_decimal PostPalette (Request "1" None shadowing_body)) []
    (Uncaught (TypeError "palette.hasOwnProperty is not a function")) /\
  (status_of (Uncaught (TypeError "palette.hasOwnProperty is not a function")) = None <->
   PostPalette = PostPalette /\ is_Some (shadowing_body !! "hasOwnProperty")).
Proof.
  assert (exec (app Number_decimal PostPalette (Request "1" None shadowing_body)) []
            (Uncaught (TypeError "palette.hasOwnProperty is not a function")))
    as Hexec by apply exec_throw.
  split; [exact Hexec |].
  exact (app_uncaught Number_decimal PostPalette (Request "1" None shadowing_body)
           [] _ Hexec).
Defined.

(** X5: validation comes before the datastore. A run answered 422 has made
    no call at all; a run answered 404 has made one call, the lookup by id,
    which found nothing. *)
Theorem app_refusals Number r request tr res :
  exec (app Number r request) tr res ->
  (status_of res = Some 422 -> tr = []) /\
  (status_of res = Some 404 ->
   tr = [Issued (Where "palettes" "id" (VString (params_id request))) (Resolved [])]).
Proof.
  intros Hexec. app_cases Hexec; simpl; split; intros Hcode;
    try discriminate Hcode; done.
Qed.

Lemma app_refusals_witness :
  let request := Request "-4" None ∅ in
  let tr := [Issued (Where "palettes" "id" (VString "-4")) (Resolved [])] in
  let res := Responded (json 404 (error_of (VString (palette_not_found "-4")))) in
  exec (app Number_decimal DeletePalette request) tr res /\
  (status_of res = Some 422 -> tr = []) /\
  (status_of res = Some 404 ->
   tr = [Issued (Where "palettes" "id" (VString "-4")) (Resolved [])]).
Proof.
  intros request tr res.
  assert (exec (app Number_decimal DeletePalette request) tr res) as Hexec.
  { apply (exec_await (Where "palettes" "id" (VString "-4")) _ (Resolved [])).
    apply exec_done. }
  split; [exact Hexec |].
  exact (app_refusals Number_decimal DeletePalette request tr res Hexec).
Defined.

(** X6: the only write of the DELETE handler is the removal of the rows of
    the requested id from the palettes table; it is asked for only after
    the lookup of the same id came back with at least one row, and it is
    the last call: the answer is 200 when the removal resolves and 500 with
    its error when it is rejected. *)
Theorem delete_palette_after_lookup request tr res ev :
  exec (delete_palette request) tr res ->
  ev ∈ tr -> writes ev = true ->
  removal ev = Some ("palettes", "id", VString (params_id request)) /\
  (exists row found,
      tr = [Issued (Where "palettes" "id" (VString (params_id request)))
              (Resolved (row :: found)); ev]) /\
  res = match rejection ev with
        | None => Responded (Response 200 (Text (palette_removed (params_id request))))
        | Some e => Responded (json 500 (error_of e))
        end.
Proof.
  intros Hexec Hin Hwrites.
  apply exec_delete_palette in Hexec
    as [(row & found & n & -> & ->)
       | [(row & found & e & -> & ->) | [[-> ->] | (e & -> & ->)]]];
    each_call; try discriminate Hwrites; eauto.
Qed.

Lemma delete_palette_after_lookup_witness :
  let request := Request "2" None ∅ in
  let ev := Issued (Del "palettes" "id" (VString "2")) (Resolved 1) in
  let tr :=
    [Issued (Where "palettes" "id" (VString "2"))
       (Resolved [VObject (palette_row 2 "cold" 1)]); ev] in
  let res := Responded (Response 200 (Text (palette_removed "2"))) in
  exec (delete_palette request) tr res /\ ev ∈ tr /\ writes ev = true /\
  removal ev = Some ("palettes", "id", VString "2") /\
  (exists row found,
      tr = [Issued (Where "palettes" "id" (VString "2")) (Resolved (row :: found)); ev]) /\
  res = match rejection ev with
        | None => Responded (Response 200 (Text (palette_removed "2")))
        | Some e => Responded (json 500 (error_of e))
        end.
Proof.
  intros request ev tr res.
  assert (exec (delete_palette request) tr res) as Hexec.
  { apply (exec_await (Where "palettes" "id" (VString "2")) _
             (Resolved [VObject (palette_row 2 "cold" 1)])).
    apply (exec_await (Del "palettes" "id" (VString "2")) _ (Resolved 1)).
    apply exec_done. }
  assert (ev ∈ tr) as Hin by apply list_elem_of_further, list_elem_of_here.
  split; [exact Hexec |]. split; [exact Hin |]. split; [reflexivity |].
  exact (delete_palette_after_lookup request tr res ev Hexec Hin eq_refl).
Defined.

Lemma exec_app_addressed Number r request tr res ev :
  exec (app Number r request) tr res -> ev ∈ tr -> addressed ev = route_table r.
Proof. intros Hexec Hin. app_cases Hexec; each_call; done. Qed.

Lemma exec_app_reads Number r request tr res ev :
  exec (app Number r request) tr res -> ev ∈ tr ->
  r = GetProjects \/ r = GetPalette -> writes ev = false.
Proof.
  intros Hexec Hin Hr. app_cases Hexec; each_call; try done;
    destruct Hr; discriminate.
Qed.


(** X7: a run of a route makes at most two calls, at most one of them a
    write, all on the one table of the route; the two GET routes make no
    write at all. *)
Theorem app_calls Number r request tr res :
  exec (app Number r request) tr res ->
  length tr <= 2 /\
  length (List.filter writes tr) <= 1 /\
  (forall ev, ev ∈ tr ->
     addressed ev = route_table r /\
     (writes ev = true -> r ≠ GetProjects /\ r ≠ GetPalette)).
Proof.
  intros Hexec. app_cases Hexec; simpl; (split; [lia |]); (split; [lia |]);
    intros ev Hin; each_call; simpl; (split; [done |]); intros Hw;
    try discriminate Hw; done.
Qed.

Lemma app_calls_witness :
  let request := Request "2" None ∅ in
  let tr :=
    [Issued (Where "palettes" "id" (VString "2"))
       (Resolved [VObject (palette_row 2 "cold" 1)]);
     Issued (Del "palettes" "id" (VString "2")) (Resolved 1)] in
  let res := Responded (Response 200 (Text (palette_removed "2"))) in
  exec (app Number_decimal DeletePalette request) tr res /\
  length tr <= 2 /\
  length (List.filter writes tr) <= 1 /\
  (forall ev, ev ∈ tr ->
     addressed ev = route_table DeletePalette /\
     (writes ev = true -> DeletePalette ≠ GetProjects /\ DeletePalette ≠ GetPalette)).
Proof.
  intros request tr res.
  assert (exec (app Number_decimal DeletePalette request) tr res) as Hexec.
  { apply (exec_await (Where "palettes" "id" (VString "2")) _
             (Resolved [VObject (palette_row 2 "cold" 1)])).
    apply (exec_await (Del "palettes" "id" (VString "2")) _ (Resolved 1)).
    apply exec_done. }
  split; [exact Hexec |].
  exact (app_calls Number_decimal DeletePalette request tr res Hexec).
Defined.

(** ** What the routes do to the datastore *)

(** X2: the two GET handlers of [app.js] change nothing, in whatever state
    the datastore is and whatever faults it has in store: every table and
    the id counter are after the run what they were before. *)
Theorem reads_change_nothing :
  forall sql_eq request s,
    (tables (run sql_eq (get_projects request) s).2 = tables s /\
     serial (run sql_eq (get_projects request) s).2 = serial s) /\
    (tables (run sql_eq (get_palette request) s).2 = tables s /\
     serial (run sql_eq (get_palette request) s).2 = serial s).
Proof.
  intros sql_eq request s. split; apply run_quiet; intros ev Hin; left.
  - apply (exec_app_reads Number_decimal GetProjects request _ _ ev
             (run_exec sql_eq _ s)); auto.
  - apply (exec_app_reads Number_decimal GetPalette request _ _ ev
             (run_exec sql_eq _ s)); auto.
Qed.

(** X13: a route changes no table but its own: after any run of a handler,
    every other table of the datastore holds the rows it held before. *)
Theorem app_frame sql_eq Number r request s t :
  t ≠ route_table r ->
  tables (run sql_eq (app Number r request) s).2 !! t = tables s !! t.
Proof.
  intros Hne. apply run_frame. intros ev Hin.
  by rewrite (exec_app_addressed Number r request _ _ ev (run_exec sql_eq _ s) Hin).
Qed.

Lemma app_frame_witness :
  "projects" ≠ route_table DeletePalette /\
  tables (run sql_eq_decimal (app Number_decimal DeletePalette (Request "2" None ∅))
            seeded).2 !! "projects"
  = tables seeded !! "projects".
Proof.
  assert ("projects" ≠ route_table DeletePalette) as Hne by discriminate.
  split; [exact Hne |].
  exact (app_frame sql_eq_decimal Number_decimal DeletePalette (Request "2" None ∅)
           seeded "projects" Hne).
Defined.


(** ** GET /api/v1/projects *)

(** X1: against a datastore that answers, the list of projects is answered
    200 with all the rows of the projects table, in the order of the table,
    under the key [projects]; an empty table is answered 200 with an empty
    list, not 404. The datastore is left as it was. *)
Theorem get_projects_contract sql_eq request s rows :
  faults s = [] ->
  tables s !! "projects" = Some rows ->
  run sql_eq (get_projects request) s
  = (Responded
       (Response 200 (Json (VObject {[ "projects" := VArray (VObject <$> rows) ]}))),
     s) /\
  (rows = [] ->
   run sql_eq (get_projects request) s
   = (Responded (Response 200 (Json (VObject {[ "projects" := VArray [] ]}))), s)).
Proof.
  intros Hfaults Hrows.
  assert (run sql_eq (get_projects request) s
          = (Responded
               (Response 200
                  (Json (VObject {[ "projects" := VArray (VObject <$> rows) ]}))), s))
    as Hrun.
  { unfold get_projects. cbn. rewrite call_no_faults by done. cbn.
    by rewrite Hrows. }
  split; [exact Hrun |]. intros ->. exact Hrun.
Qed.

Lemma get_projects_contract_witness :
  faults seeded = [] /\
  tables seeded !! "projects" = Some [project_row 1 "Project 1"] /\
  run sql_eq_decimal (get_projects (Request "" None ∅)) seeded
  = (Responded
       (Response 200
          (Json (VObject {[ "projects" := VArray [VObject (project_row 1 "Project 1")] ]}))),
     seeded).
Proof.
  split; [reflexivity |]. split; [reflexivity |].
  exact (proj1 (get_projects_contract sql_eq_decimal (Request "" None ∅) seeded
                  [project_row 1 "Project 1"] eq_refl eq_refl)).
Defined.

(** ** POST /api/v1/projects/:id/palettes, on a body without [hasOwnProperty] *)

Lemma first_missing_answer Number request before p after :
  body request !! "hasOwnProperty" = None ->
  body_parameters = before ++ p :: after ->
  Forall (fun q => is_Some (body request !! q)) before ->
  body request !! p = None ->
  post_palette Number request
  = Done (send 422 (error_of (VString (missing_palette_property p)))).
Proof.
  intros Hplain Hsplit Hbefore Hp.
  assert (forall q, q ∈ before ++ p :: after -> q ≠ "projects_id") as Hne
    by (intros q Hq; apply body_parameters_projects_id; by rewrite Hsplit).
  apply (post_palette_missing Number request before p (after ++ ["projects_id"]));
    [done | | |].
  - change required_palette_parameters with (body_parameters ++ ["projects_id"]).
    rewrite Hsplit. by rewrite <- app_assoc.
  - rewrite Forall_forall in Hbefore |- *. intros q Hq.
    rewrite palette_of_body by (apply Hne; set_solver). auto.
  - rewrite palette_of_body by (apply Hne; set_solver). done.
Qed.

(** X8: when the body has no property named [hasOwnProperty] and lacks one
    of [name], [color_one], ..., [color_five], the handler answers 422 with
    the message that names the first of them that is missing, in that
    order, whatever else is missing or present; it makes no call, and the
    datastore is left as it was. *)
Theorem post_palette_first_missing sql_eq Number request s before p after :
  body request !! "hasOwnProperty" = None ->
  body_parameters = before ++ p :: after ->
  Forall (fun q => is_Some (body request !! q)) before ->
  body request !! p = None ->
  run sql_eq (post_palette Number request) s
  = (Responded
       (Response 422
          (Json (VObject {[ "error" := VString (missing_palette_property p) ]}))), s) /\
  calls sql_eq (post_palette Number request) s = [].
Proof.
  intros Hplain Hsplit Hbefore Hp.
  by rewrite (first_missing_answer Number request before p after).
Qed.

(** A palette that lacks its third and its fifth colour. *)
Lemma post_palette_first_missing_witness :
  let request :=
    Request "1" None (delete "color_three" (delete "color_five" new_palette)) in
  body request !! "hasOwnProperty" = None /\
  body_parameters = ["name"; "color_one"; "color_two"] ++ "color_three"
                      :: ["color_four"; "color_five"] /\
  Forall (fun q => is_Some (body request !! q)) ["name"; "color_one"; "color_two"] /\
  body request !! "color_three" = None /\
  run sql_eq_decimal (post_palette Number_decimal request) seeded
  = (Responded
       (Response 422
          (Json (VObject
             {[ "error" := VString (missing_palette_property "color_three") ]}))),
     seeded) /\
  calls sql_eq_decimal (post_palette Number_decimal request) seeded = [].
Proof.
  intros request.
  assert (Forall (fun q => is_Some (body request !! q))
            ["name"; "color_one"; "color_two"]) as Hbefore
    by (repeat (constructor; [by eexists |]); constructor).
  split; [reflexivity |]. split; [reflexivity |]. split; [exact Hbefore |].
  split; [reflexivity |].
  exact (post_palette_first_missing sql_eq_decimal Number_decimal request seeded
           ["name"; "color_one"; "color_two"] "color_three"
           ["color_four"; "color_five"] eq_refl eq_refl Hbefore eq_refl).
Defined.

(** X9: when the body has no property named [hasOwnProperty] and has all of
    [name], [color_one], ..., [color_five], whatever their values, every run
    of the handler makes one call, the insert into [palettes] of the body
    with [projects_id] set to [Number(id)] and every other property as the
    client sent it, returning [id]; it answers 201 with the first id the
    insert resolves to ([undefined] when it resolves to none), or 500 with
    the error when the insert is rejected. *)
Theorem post_palette_inserts Number request tr res :
  body request !! "hasOwnProperty" = None ->
  Forall (fun q => is_Some (body request !! q)) body_parameters ->
  exec (post_palette Number request) tr res ->
  let palette := palette_of Number request in
  palette !! "projects_id" = Some (VNumber (Number (params_id request))) /\
  (forall q, q ≠ "projects_id" -> palette !! q = body request !! q) /\
  ((exists id,
       tr = [Issued (Insert "palettes" palette "id") (Resolved id)] /\
       res = Responded (Response 201 (Json (VObject {[ "id" := first id ]}))))
   \/ (exists e,
       tr = [Issued (Insert "palettes" palette "id") (Rejected e)] /\
       res = Responded (Response 500 (Json (VObject {[ "error" := e ]}))))).
Proof.
  intros Hplain Hall Hexec palette.
  split; [apply lookup_insert_eq |]. split; [intros q; apply palette_of_body |].
  apply exec_post_palette in Hexec
    as [([v Hv] & _) | [(_ & p & Hin & Hp & _) | [(_ & id & -> & ->) | (_ & e & -> & ->)]]].
  - congruence.
  - rewrite Forall_forall in Hall. destruct (Hall p Hin) as [v Hv]. congruence.
  - left. eauto.
  - right. eauto.
Qed.

(** A palette whose name is the empty string and whose colours are [null]. *)
Lemma post_palette_inserts_witness :
  let body :=
    <[ "name" := VString "" ]> ((fun _ => VNull) <$> new_palette) in
  let request := Request "7" None body in
  let palette := palette_of Number_decimal request in
  let tr := [Issued (Insert "palettes" palette "id") (Resolved [])] in
  let res := Responded (Response 201 (Json (VObject {[ "id" := VUndefined ]}))) in
  body !! "hasOwnProperty" = None /\
  Forall (fun q => is_Some (body !! q)) body_parameters /\
  exec (post_palette Number_decimal request) tr res /\
  palette !! "projects_id" = Some (VNumber (Number_decimal "7")) /\
  (forall q, q ≠ "projects_id" -> palette !! q = body !! q) /\
  ((exists id,
       tr = [Issued (Insert "palettes" palette "id") (Resolved id)] /\
       res = Responded (Response 201 (Json (VObject {[ "id" := first id ]}))))
   \/ (exists e,
       tr = [Issued (Insert "palettes" palette "id") (Rejected e)] /\
       res = Responded (Response 500 (Json (VObject {[ "error" := e ]}))))).
Proof.
  intros body request palette tr res.
  assert (Forall (fun q => is_Some (body !! q)) body_parameters) as Hall
    by (repeat (constructor; [by eexists |]); constructor).
  assert (exec (post_palette Number_decimal request) tr res) as Hexec.
  { apply (exec_await (Insert "palettes" palette "id") _ (Resolved [])).
    apply exec_done. }
  split; [reflexivity |]. split; [exact Hall |]. split; [exact Hexec |].
  exact (post_palette_inserts Number_decimal request tr res eq_refl Hall Hexec).
Defined.

Lemma dom_is_Some (o1 o2 : object) q :
  dom o1 = dom o2 -> is_Some (o1 !! q) -> is_Some (o2 !! q).
Proof. intros Hdom Hq. apply elem_of_dom. rewrite <- Hdom. by apply elem_of_dom. Qed.

Lemma dom_None (o1 o2 : object) q :
  dom o1 = dom o2 -> o1 !! q = None -> o2 !! q = None.
Proof.
  intros Hdom Hq. apply not_elem_of_dom. rewrite <- Hdom. by apply not_elem_of_dom.
Qed.

Lemma post_palette_names_transfer Number request1 request2 :
  dom (body request1) = dom (body request2) ->
  (forall a, post_palette Number request1 = Done a ->
             post_palette Number request2 = Done a) /\
  (forall e, post_palette Number request1 = Throw e ->
             post_palette Number request2 = Throw e) /\
  (post_palette Number request1 = insert_palette (palette_of Number request1) ->
   post_palette Number request2 = insert_palette (palette_of Number request2)).
Proof.
  intros Hdom.
  destruct (post_palette_by_body Number request1)
    as [[Hshadow Heq]
       | [(Hplain & before & p & after & Hsplit & Hbefore & Hp & Heq)
         | (Hplain & Hall & Heq)]].
  - assert (post_palette Number request2
            = Throw (TypeError "palette.hasOwnProperty is not a function")) as Heq2
      by (apply post_palette_shadowed; by eapply dom_is_Some).
    rewrite Heq, Heq2. repeat split; [discriminate | done |].
    unfold insert_palette. cbn. discriminate.
  - assert (post_palette Number request2
            = Done (send 422 (error_of (VString (missing_palette_property p)))))
      as Heq2.
    { apply (first_missing_answer Number request2 before p after);
        [by eapply dom_None | done | | by eapply dom_None].
      eapply Forall_impl; [exact Hbefore |]. intros q. by apply dom_is_Some. }
    rewrite Heq, Heq2. repeat split; [done | discriminate |].
    unfold insert_palette. cbn. discriminate.
  - assert (post_palette Number request2
            = insert_palette (palette_of Number request2)) as Heq2.
    { apply post_palette_complete; [by eapply dom_None |].
      eapply Forall_impl; [exact Hall |]. intros q. by apply dom_is_Some. }
    rewrite Heq. repeat split; [| | done];
      unfold insert_palette; cbn; discriminate.
Qed.

(** X10: the validation of the palette POST looks at the names of the
    properties of the body and never at their values: two bodies with the
    same property names are both refused with the same 422, or both make
    the handler throw, or are both passed on to the insert. So a palette
    whose name is the empty string or whose colours are [null] passes. *)
Theorem post_palette_names_only Number request1 request2 :
  dom (body request1) = dom (body request2) ->
  (forall a, post_palette Number request1 = Done a <->
             post_palette Number request2 = Done a) /\
  (forall e, post_palette Number request1 = Throw e <->
             post_palette Number request2 = Throw e) /\
  (post_palette Number request1 = insert_palette (palette_of Number request1) <->
   post_palette Number request2 = insert_palette (palette_of Number request2)).
Proof.
  intros Hdom.
  destruct (post_palette_names_transfer Number request1 request2 Hdom)
    as (Hdone & Hthrow & Hinsert).
  destruct (post_palette_names_transfer Number request2 request1 (eq_sym Hdom))
    as (Hdone' & Hthrow' & Hinsert').
  repeat split; auto.
Qed.

Lemma post_palette_names_only_witness :
  let request1 := Request "1" None new_palette in
  let request2 := Request "1" None ((fun _ => VNull) <$> new_palette) in
  dom (body request1) = dom (body request2) /\
  (post_palette Number_decimal request1
   = insert_palette (palette_of Number_decimal request1) <->
   post_palette Number_decimal request2
   = insert_palette (palette_of Number_decimal request2)).
Proof.
  intros request1 request2.
  assert (dom (body request1) = dom (body request2)) as Hdom
    by (symmetry; apply dom_fmap_L).
  split; [exact Hdom |].
  exact (proj2 (proj2 (post_palette_names_only Number_decimal request1 request2 Hdom))).
Defined.

(** ** A palette posted, then looked up, then deleted *)

Lemma stored_id s (row : object) : is_Some (stored s row !! "id").
Proof.
  unfold stored. destruct (row !! "id") as [v |] eqn:Hid; [eauto |].
  rewrite lookup_insert_eq. eauto.
Qed.










(** ** A project posted, then listed *)


